(** * A2A with DID: the policy engine and the server's authentication handler

    A shallow embedding of [policy.js] (class [PolicyValidator]) and of the
    [POST /a2a/authenticate] handler of [2_server.js], with the properties
    of the protocol specification that concern them.

    Conventions of the embedding:
    - JavaScript values that reach the policy engine are decoded JSON; they
      are modelled by the type [value].  Numbers are integers (the code
      only tests claim numbers for truthiness and prints them); strings are
      their UTF-8 bytes.
    - A JavaScript exception is a [Throw]; every function that can throw
      returns a [result].
    - [Date.now()] is an argument ([now], in milliseconds).
    - The console output of the handler is recorded, line by line.  That
      of the policy class is not, but the conversions to a string that
      its log lines perform are kept, since they can throw.
    - [verifyPresentation] (package did-jwt-vc), [Date.parse] and the
      JSON/base64 encoding of the token are supplied by the environment and
      are section variables. *)

From Stdlib Require Import String Ascii List ZArith QArith Qround Bool Lia DecimalString.
Import ListNotations.
Open Scope string_scope.
Open Scope Z_scope.

(** ** JavaScript values and the runtime operations the code relies on *)

Module JS.

Unset Elimination Schemes.
Inductive value : Type :=
| VUndefined
| VNull
| VBool (b : bool)
| VNum (n : Z)
| VStr (s : string)
| VArr (elems : list value)
| VObj (props : list (string * value)).
Set Elimination Schemes.

(** Induction on values, with the hypothesis for the elements of an
    array. *)
Definition value_elems_ind (P : value -> Prop)
  (Hundefined : P VUndefined) (Hnull : P VNull)
  (Hbool : forall b, P (VBool b)) (Hnum : forall n, P (VNum n))
  (Hstr : forall s, P (VStr s))
  (Harr : forall elems, Forall P elems -> P (VArr elems))
  (Hobj : forall props, P (VObj props)) : forall v, P v :=
  fix F (v : value) : P v :=
    match v with
    | VUndefined => Hundefined
    | VNull => Hnull
    | VBool b => Hbool b
    | VNum n => Hnum n
    | VStr s => Hstr s
    | VArr elems =>
        Harr elems
          ((fix G (l : list value) : Forall P l :=
              match l with
              | [] => Forall_nil P
              | x :: rest => Forall_cons x (F x) (G rest)
              end) elems)
    | VObj props => Hobj props
    end.

(** Where an exception was thrown: by the engine (a TypeError), inside the
    did-jwt-vc verifier, or at one of the handler's four [throw]
    statements. *)
Inductive thrower : Type :=
| Engine
| Verifier
| MissingVC
| RevokedVC
| PolicyBreach
| Unauthorized.

Record exn : Type := Exn { source : thrower; message : string }.

Inductive result (A : Type) : Type :=
| Return (a : A)
| Throw (e : exn).
Arguments Return {A} a.
Arguments Throw {A} e.

Definition bind {A B : Type} (r : result A) (k : A -> result B) : result B :=
  match r with
  | Return a => k a
  | Throw e => Throw e
  end.

Definition TypeError {A : Type} (msg : string) : result A :=
  Throw (Exn Engine msg).

(** [!!v] *)
Definition truthy (v : value) : bool :=
  match v with
  | VUndefined | VNull => false
  | VBool b => b
  | VNum n => negb (n =? 0)
  | VStr s => negb (String.eqb s "")
  | VArr _ | VObj _ => true
  end.

Definition nullish (v : value) : bool :=
  match v with
  | VUndefined | VNull => true
  | _ => false
  end.

Fixpoint own (k : string) (props : list (string * value)) : option value :=
  match props with
  | [] => None
  | (k', v) :: rest => if String.eqb k k' then Some v else own k rest
  end.

Definition has_own (k : string) (props : list (string * value)) : bool :=
  match own k props with Some _ => true | None => false end.

(** The identifiers the source reads with a member access.  None of them
    is defined by a built-in prototype, so on anything but an object with
    that own property the access yields [undefined]. *)
Inductive field : Type :=
| f_type | f_vc | f_credentialSubject | f_taskLog | f_action | f_issuedAt
| f_id | f_verifiablePresentation | f_verifiableCredential.

Definition field_name (f : field) : string :=
  match f with
  | f_type => "type"
  | f_vc => "vc"
  | f_credentialSubject => "credentialSubject"
  | f_taskLog => "taskLog"
  | f_action => "action"
  | f_issuedAt => "issuedAt"
  | f_id => "id"
  | f_verifiablePresentation => "verifiablePresentation"
  | f_verifiableCredential => "verifiableCredential"
  end.

(** [v.f] on a value that is known not to be null or undefined *)
Definition read (v : value) (f : field) : value :=
  match v with
  | VObj props =>
      match own (field_name f) props with Some x => x | None => VUndefined end
  | _ => VUndefined
  end.

(** [v.f] *)
Definition get (v : value) (f : field) : result value :=
  match v with
  | VUndefined =>
      TypeError ("Cannot read properties of undefined (reading '"
                   ++ field_name f ++ "')")
  | VNull =>
      TypeError ("Cannot read properties of null (reading '"
                   ++ field_name f ++ "')")
  | _ => Return (read v f)
  end.

(** [v?.f] *)
Definition get_opt (v : value) (f : field) : value :=
  if nullish v then VUndefined else read v f.

(** [v?.[0]] *)
Definition first_opt (v : value) : value :=
  match v with
  | VArr (x :: _) => x
  | VStr (String c _) => VStr (String c EmptyString)
  | VObj props => match own "0" props with Some x => x | None => VUndefined end
  | _ => VUndefined
  end.

(** Names every ordinary object inherits from [Object.prototype]. *)
Definition Object_prototype : list string :=
  [ "constructor"; "__defineGetter__"; "__defineSetter__"; "hasOwnProperty";
    "__lookupGetter__"; "__lookupSetter__"; "isPrototypeOf";
    "propertyIsEnumerable"; "toString"; "valueOf"; "__proto__";
    "toLocaleString" ].

(** Names an array inherits from [Array.prototype] (ECMAScript 2023, as
    in Node 20), besides those of [Object.prototype].  The list grows with
    the version of the engine; it matters only to [key in
    credentialSubject] when the subject is an array. *)
Definition Array_prototype : list string :=
  [ "at"; "concat"; "copyWithin"; "entries"; "every"; "fill"; "filter";
    "find"; "findIndex"; "findLast"; "findLastIndex"; "flat"; "flatMap";
    "forEach"; "includes"; "indexOf"; "join"; "keys"; "lastIndexOf"; "map";
    "pop"; "push"; "reduce"; "reduceRight"; "reverse"; "shift"; "slice";
    "some"; "sort"; "splice"; "toReversed"; "toSorted"; "toSpliced";
    "unshift"; "values"; "with" ].

Definition mem (k : string) (names : list string) : bool :=
  existsb (String.eqb k) names.

(** [String(n)] for an integer [n]: its decimal digits.  JavaScript
    prints the integers below 10^21 in magnitude this way; from 10^21 on
    it prints an exponent, so that there the text of a message differs
    (and nothing else: no branch depends on the text of a number). *)
Definition decimal (n : Z) : string :=
  NilZero.string_of_int (Z.to_int n).

Fixpoint join (sep : string) (parts : list string) : string :=
  match parts with
  | [] => ""
  | [p] => p
  | p :: rest => p ++ sep ++ join sep rest
  end.

(** [String(v)], as a template literal or a computed property key applies
    it.  An object with an own [toString] property (which decoded JSON
    cannot make callable) has no primitive value. *)
Fixpoint toString (v : value) : result string :=
  match v with
  | VUndefined => Return "undefined"
  | VNull => Return "null"
  | VBool b => Return (if b then "true" else "false")
  | VNum n => Return (decimal n)
  | VStr s => Return s
  | VArr elems =>
      (fix joined (l : list value) : result string :=
         match l with
         | [] => Return ""
         | x :: rest =>
             bind (match x with
                   | VUndefined | VNull => Return ""
                   | _ => toString x
                   end)
               (fun s =>
                  match rest with
                  | [] => Return s
                  | _ => bind (joined rest) (fun r => Return (s ++ "," ++ r))
                  end)
         end) elems
  | VObj props =>
      if has_own "toString" props
      then TypeError "Cannot convert object to primitive value"
      else Return "[object Object]"
  end.

(** [hay.includes(needle)] on strings *)
Fixpoint String_includes (hay needle : string) : bool :=
  String.prefix needle hay
  || match hay with
     | EmptyString => false
     | String _ rest => String_includes rest needle
     end.

(** [v.includes(s)] for a string [s]: [Array.prototype.includes] compares
    with SameValueZero, [String.prototype.includes] searches a substring;
    no other decoded JSON value has a callable [includes]. *)
Definition includes (v : value) (s : string) : result bool :=
  match v with
  | VArr elems =>
      Return (existsb (fun x => match x with
                                | VStr t => String.eqb t s
                                | _ => false
                                end) elems)
  | VStr hay => Return (String_includes hay s)
  | _ => TypeError "vcTypes.includes is not a function"
  end.

(** [names.includes(v)] for an array [names] of strings *)
Definition listed (names : list string) (v : value) : bool :=
  match v with
  | VStr s => mem s names
  | _ => false
  end.

(** how the engine prints a primitive in a message *)
Definition primitive_text (v : value) : string :=
  match v with
  | VNull => "null"
  | VBool b => if b then "true" else "false"
  | VNum n => decimal n
  | VStr s => s
  | _ => "undefined"
  end.

(** [k in v] *)
Definition has_property (k : string) (v : value) : result bool :=
  match v with
  | VObj props => Return (has_own k props || mem k Object_prototype)
  | VArr elems =>
      Return (existsb (fun i => String.eqb k (decimal (Z.of_nat i)))
                (seq 0 (length elems))
              || String.eqb k "length"
              || mem k Array_prototype || mem k Object_prototype)
  | _ =>
      TypeError ("Cannot use 'in' operator to search for '" ++ k ++ "' in "
                   ++ primitive_text v)
  end.

(** The time value of [new Date(n)] for a number [n]. *)
Definition TimeClip (n : Z) : option Z :=
  if Z.abs n <=? 8640000000000000 then Some n else None.

End JS.

Declare Scope js_scope.
Delimit Scope js_scope with js.
Notation "x <- e ;; k" := (JS.bind e (fun x => k))
  (at level 61, e at next level, right associativity) : js_scope.
Open Scope js_scope.

(** ** policy.js: class PolicyValidator *)

Module Policy.
Import JS.

(** [this.policies], as the constructor sets it *)
Record policies : Type := {
  requiredVCTypes : list string;
  allowedActions : list string;
  maxVCAge : Z
}.

Definition constructor_policies : policies := {|
  requiredVCTypes := ["TaskLogCredential"];
  allowedActions := ["OrderPizza"; "QueryStatus"; "UpdateProfile"];
  maxVCAge := 3600
|}.

Record revocation : Type := { revoked : bool; reason : value }.

(** One constructor per [errors.push] of [checkPolicyCompliance]; the
    pushed string is [violation_message]. *)
Inductive violation : Type :=
| MissingVCType (required : list string)
| ActionNotAllowed (printed : string)
| VCExpired (elapsed max : Z)
| MissingField (key : string).

Definition violation_message (e : violation) : string :=
  match e with
  | MissingVCType required => "필수 VC 타입 누락: " ++ join ", " required
  | ActionNotAllowed printed => "허용되지 않은 작업: " ++ printed
  | VCExpired elapsed max =>
      "VC가 만료됨 (" ++ decimal elapsed ++ "초 경과, 최대 "
        ++ decimal max ++ "초)"
  | MissingField key => "필수 필드 누락: " ++ key
  end.

Record compliance : Type := { compliant : bool; errors : list violation }.

Record grant : Type := {
  authorized : bool;
  holderDID : value;
  action : value;
  permissions : list string;
  expiresIn : Z
}.

Record token : Type := {
  tokenType : string;
  accessToken : string;
  token_expiresIn : Z
}.

(** [const permissions = { OrderPizza: [...], ... }] in [authorize] *)
Definition permissions_table : list (string * list string) :=
  [ ("OrderPizza", ["read:menu"; "write:order"]);
    ("QueryStatus", ["read:status"]);
    ("UpdateProfile", ["write:profile"]) ].

Fixpoint table_own (k : string) (t : list (string * list string))
  : option (list string) :=
  match t with
  | [] => None
  | (k', v) :: rest => if String.eqb k k' then Some v else table_own k rest
  end.

(** [claims.type || claims.vc?.type || []] *)
Definition vcTypes_of (claims : value) : result value :=
  t <- get claims f_type ;;
  if truthy t then Return t
  else
    let t' := get_opt (read claims f_vc) f_type in
    Return (if truthy t' then t' else VArr []).

(** [claims.credentialSubject || claims.vc?.credentialSubject || {}] *)
Definition credentialSubject_of (claims : value) : result value :=
  s <- get claims f_credentialSubject ;;
  if truthy s then Return s
  else
    let s' := get_opt (read claims f_vc) f_credentialSubject in
    Return (if truthy s' then s' else VObj []).

(** [credentialSubject.taskLog?.action] *)
Definition taskAction_of (credentialSubject : value) : value :=
  get_opt (read credentialSubject f_taskLog) f_action.

(** [required.some(r => vcTypes.includes(r))] *)
Fixpoint some_included (required : list string) (vcTypes : value)
  : result bool :=
  match required with
  | [] => Return false
  | r :: rest =>
      b <- includes vcTypes r ;;
      if b then Return true else some_included rest vcTypes
  end.

(** [(Date.now() - t) / 1000]: on millisecond time values the double is
    the rational up to rounding, which does not change how it compares
    with a whole number of seconds. *)
Definition ageInSeconds (now t : Z) : Q := (now - t) # 1000.

Definition exceeds (age : Q) (max : Z) : bool :=
  negb (Qle_bool age (inject_Z max)).

(** The two [return] statements that end [checkPolicyCompliance]. *)
Definition verdict (errors : list violation) : compliance :=
  match errors with
  | _ :: _ => {| compliant := false; errors := errors |}
  | [] => {| compliant := true; errors := [] |}
  end.

Section Validator.

(** [Date.parse]: the time value of a date string, [None] for NaN *)
Variable Date_parse : string -> option Z.

(** [Buffer.from(JSON.stringify(v)).toString('base64')] *)
Variable encode : value -> string.

(** [new Date(v).getTime()], [None] for NaN *)
Definition Date_getTime (v : value) : result (option Z) :=
  match v with
  | VUndefined => Return None
  | VNull => Return (Some 0)
  | VBool b => Return (Some (if b then 1 else 0))
  | VNum n => Return (TimeClip n)
  | VStr s => Return (Date_parse s)
  | VArr _ | VObj _ => s <- toString v ;; Return (Date_parse s)
  end.

Definition checkRevocationStatus (vcId : value) : result revocation :=
  _ <- toString vcId ;;
  Return {| revoked := false; reason := VNull |}.

(** check 1 *)
Definition check_type (this : policies) (claims : value)
  : result (list violation) :=
  vcTypes <- vcTypes_of claims ;;
  hasRequiredType <- some_included (requiredVCTypes this) vcTypes ;;
  Return (if hasRequiredType then []
          else [MissingVCType (requiredVCTypes this)]).

(** check 2 *)
Definition check_action (this : policies) (credentialSubject : value)
  : result (list violation) :=
  let taskAction := taskAction_of credentialSubject in
  if truthy taskAction && negb (listed (allowedActions this) taskAction)
  then printed <- toString taskAction ;; Return [ActionNotAllowed printed]
  else Return [].

(** check 3 *)
Definition check_age (this : policies) (now : Z) (credentialSubject : value)
  : result (list violation) :=
  let issuedAt := read credentialSubject f_issuedAt in
  if truthy issuedAt
  then
    time <- Date_getTime issuedAt ;;
    match time with
    | Some t =>
        let age := ageInSeconds now t in
        Return (if exceeds age (maxVCAge this)
                then [VCExpired (Qfloor age) (maxVCAge this)]
                else [])
    | None => Return []
    end
  else Return [].

(** check 4, the loop over [Object.entries(requiredSchema)] *)
Fixpoint check_schema (entries : list (string * value))
  (credentialSubject : value) : result (list violation) :=
  match entries with
  | [] => Return []
  | (key, _) :: rest =>
      present <- has_property key credentialSubject ;;
      more <- check_schema rest credentialSubject ;;
      Return (if present then more else MissingField key :: more)
  end.

(** [requiredSchema] is [None] when the argument is omitted. *)
Definition checkPolicyCompliance (this : policies) (now : Z) (claims : value)
  (requiredSchema : option (list (string * value))) : result compliance :=
  e1 <- check_type this claims ;;
  credentialSubject <- credentialSubject_of claims ;;
  e2 <- check_action this credentialSubject ;;
  e3 <- check_age this now credentialSubject ;;
  e4 <- match requiredSchema with
        | Some entries => check_schema entries credentialSubject
        | None => Return []
        end ;;
  Return (verdict (e1 ++ e2 ++ e3 ++ e4)%list).

(** [permissions[taskAction] || []], then the [join] of the log line: a
    key that the table does not own is looked up on [Object.prototype],
    whose members are truthy and have no [join]. *)
Definition grantedPermissions_of (taskAction : value) : result (list string) :=
  key <- toString taskAction ;;
  match table_own key permissions_table with
  | Some perms => Return perms
  | None =>
      if mem key Object_prototype
      then TypeError "grantedPermissions.join is not a function"
      else Return []
  end.

Definition authorize (claims : value) : result grant :=
  credentialSubject <- credentialSubject_of claims ;;
  let taskAction := taskAction_of credentialSubject in
  let holderDID := read credentialSubject f_id in
  grantedPermissions <- grantedPermissions_of taskAction ;;
  Return {| authorized := true;
            holderDID := holderDID;
            action := taskAction;
            permissions := grantedPermissions;
            expiresIn := 3600 |}.

(** the object that [generateAuthToken] serialises *)
Definition token_payload (now : Z) (authResult : grant) : value :=
  VObj [ ("did", holderDID authResult);
         ("action", action authResult);
         ("permissions", VArr (map VStr (permissions authResult)));
         ("exp", VNum (now / 1000 + expiresIn authResult)) ].

Definition generateAuthToken (now : Z) (authResult : grant) : token :=
  {| tokenType := "Bearer";
     accessToken := encode (token_payload now authResult);
     token_expiresIn := expiresIn authResult |}.

End Validator.

End Policy.

(** ** 2_server.js: the handler of POST /a2a/authenticate *)

Module Server.
Import JS Policy.

(** The handler's console output: [console.log(`[Server] Step n: ...`)]
    and the [console.error("[Server] 인증 실패:", e.message)] of its
    [catch]. *)
Inductive console_line : Type :=
| Step (n : nat)
| AuthFailed (reason : string).

(** [res.status(s).json(body)]; [res.json(body)] has status 200 *)
Record response : Type := { status : Z; body : value }.

(** The outcome of [await verifyPresentation(vpJwt, didResolver)] *)
Inductive verification : Type :=
| Verified (verifiedVP : value)
| Failed (reason : string).

(** A run of the [try] block: the lines written so far and the outcome. *)
Definition logged (A : Type) : Type := (list console_line * result A)%type.

Definition lift {A : Type} (r : result A) : logged A := ([], r).

Definition say (l : console_line) : logged unit := ([l], Return tt).

Definition throw {A : Type} (who : thrower) (msg : string) : logged A :=
  ([], Throw (Exn who msg)).

Definition lbind {A B : Type} (m : logged A) (k : A -> logged B) : logged B :=
  match m with
  | (l1, Return a) => let (l2, r) := k a in ((l1 ++ l2)%list, r)
  | (l1, Throw e) => (l1, Throw e)
  end.

Notation "x <~ e ;; k" := (lbind e (fun x => k))
  (at level 61, e at next level, right associativity) : js_scope.

Section Handler.

Variable verifyPresentation : value -> verification.
Variable Date_parse : string -> option Z.
Variable encode : value -> string.

(** [const policyValidator = new PolicyValidator(didResolver)] *)
Definition policyValidator : policies := constructor_policies.

Definition await_verifyPresentation (vpJwt : value) : result value :=
  match verifyPresentation vpJwt with
  | Verified verifiedVP => Return verifiedVP
  | Failed reason => Throw (Exn Verifier reason)
  end.

(** [verifiedVP.verifiablePresentation?.verifiableCredential?.[0]
     || verifiedVP.verifiableCredential?.[0]] *)
Definition credential_of (verifiedVP : value) : result value :=
  presentation <- get verifiedVP f_verifiablePresentation ;;
  let embedded := first_opt (get_opt presentation f_verifiableCredential) in
  Return (if truthy embedded then embedded
          else first_opt (read verifiedVP f_verifiableCredential)).

Definition success (clientDid : value) (authToken : token) : response :=
  {| status := 200;
     body := VObj [ ("status", VStr "success");
                    ("message", VStr "인증 성공");
                    ("clientDid", clientDid);
                    ("authToken", VStr (accessToken authToken)) ] |}.

Definition rejection (code : Z) (reason : string) : response :=
  {| status := code; body := VObj [ ("error", VStr reason) ] |}.

(** The [try] block.  [nowCheck] and [nowToken] are the two readings of
    [Date.now()]: in [checkPolicyCompliance] and in [generateAuthToken]. *)
Definition attempt (nowCheck nowToken : Z) (vpJwt : value) : logged response :=
  _ <~ say (Step 1) ;;
  verifiedVP <~ lift (await_verifyPresentation vpJwt) ;;
  _ <~ say (Step 2) ;;
  credential <~ lift (credential_of verifiedVP) ;;
  _ <~ (if truthy credential then lift (Return tt)
        else throw MissingVC "VC를 찾을 수 없습니다") ;;
  _ <~ say (Step 3) ;;
  revocationStatus <~ lift (checkRevocationStatus credential) ;;
  _ <~ (if revoked revocationStatus
        then printed <~ lift (toString (reason revocationStatus)) ;;
             throw RevokedVC ("VC가 폐기되었습니다: " ++ printed)
        else lift (Return tt)) ;;
  _ <~ say (Step 4) ;;
  complianceResult <~
    lift (checkPolicyCompliance Date_parse policyValidator nowCheck
            credential None) ;;
  _ <~ (if compliant complianceResult then lift (Return tt)
        else throw PolicyBreach
               ("정책 위반: "
                  ++ join ", " (map violation_message (errors complianceResult)))) ;;
  _ <~ say (Step 5) ;;
  authResult <~ lift (authorize credential) ;;
  _ <~ (if authorized authResult then lift (Return tt)
        else throw Unauthorized "권한 없음") ;;
  _ <~ say (Step 6) ;;
  let authToken := generateAuthToken encode nowToken authResult in
  _ <~ say (Step 7) ;;
  let subject := get_opt (read credential f_credentialSubject) f_id in
  let clientDid := if truthy subject then subject else holderDID authResult in
  lift (Return (success clientDid authToken)).

(** [vpJwt] is [req.body.vp]. *)
Definition authenticate (nowCheck nowToken : Z) (vpJwt : value)
  : list console_line * response :=
  if negb (truthy vpJwt)
  then ([], rejection 401 "VP가 필요합니다")
  else
    match attempt nowCheck nowToken vpJwt with
    | (log, Return res) => (log, res)
    | (log, Throw e) =>
        ((log ++ [AuthFailed (message e)])%list, rejection 403 (message e))
    end.

End Handler.

End Server.

(** ** Shapes of claims, and the values used in the examples *)

Module Shape.
Import JS Policy.

(** [String(v)] succeeds. *)
Definition printable (v : value) : bool :=
  match toString v with Return _ => true | Throw _ => false end.

(** [v] is an array or a string: the values that have [includes]. *)
Definition sequence (v : value) : bool :=
  match v with VArr _ | VStr _ => true | _ => false end.

(** [v] is an object or an array: the values [in] accepts on its right. *)
Definition object_like (v : value) : bool :=
  match v with VArr _ | VObj _ => true | _ => false end.

Definition no_entries (requiredSchema : option (list (string * value))) : bool :=
  match requiredSchema with Some (_ :: _) => false | _ => true end.

(** Claims of the shape the checks expect: not null or undefined; type
    tags (with the fallbacks of the code) an array or a string;
    [taskLog.action] and [issuedAt] convertible to a string; and, when a
    schema with keys is supplied, a [credentialSubject] that is an object
    or an array. *)
Definition well_shaped (this : policies) (claims : value)
  (requiredSchema : option (list (string * value))) : bool :=
  match vcTypes_of claims, credentialSubject_of claims with
  | Return vcTypes, Return subject =>
      (match requiredVCTypes this with [] => true | _ => sequence vcTypes end)
      && printable (taskAction_of subject)
      && printable (read subject f_issuedAt)
      && (no_entries requiredSchema || object_like subject)
  | _, _ => false
  end.

Definition is_expiry (e : violation) : bool :=
  match e with VCExpired _ _ => true | _ => false end.

(** the errors list reports an expired credential *)
Definition reports_expiry (r : compliance) : bool :=
  existsb is_expiry (errors r).

(** the [authToken] member of a response body *)
Definition authToken_of (res : Server.response) : value :=
  match Server.body res with
  | VObj props => match own "authToken" props with Some t => t | None => VUndefined end
  | _ => VUndefined
  end.

End Shape.

Module Sample.
Import JS Policy Server.

Definition issued : string := "2026-01-01T00:00:00.000Z".
Definition issued_ms : Z := 1767225600000.

(** a [Date.parse] that knows one date, 2026-01-01T00:00:00Z *)
Definition Date_parse (s : string) : option Z :=
  if String.eqb s issued then Some issued_ms else None.

(** a stand-in for the base64 of the JSON text: it shows the action *)
Definition encode (v : value) : string :=
  match toString (read v f_action) with
  | Return a => "base64:" ++ a
  | Throw _ => "base64"
  end.

Definition holder : value := VStr "did:ethr:development:0xC1ient".

Definition subject_props (a : value) : list (string * value) :=
  [ ("id", holder);
    ("taskLog", VObj [ ("action", a); ("timestamp", VNum 1767225599000) ]);
    ("issuedAt", VStr issued) ].

Definition subject (a : value) : value := VObj (subject_props a).

(** a TaskLog credential as [issueTaskLogVC] builds it *)
Definition credential (a : value) : value :=
  VObj [ ("type", VArr [ VStr "VerifiableCredential"; VStr "TaskLogCredential" ]);
         ("credentialSubject", subject a) ].

Definition undated_subject (a : value) : value :=
  VObj [ ("id", holder); ("taskLog", VObj [ ("action", a) ]) ].

(** a TaskLog credential without [issuedAt] *)
Definition undated (a : value) : value :=
  VObj [ ("type", VArr [ VStr "VerifiableCredential"; VStr "TaskLogCredential" ]);
         ("credentialSubject", undated_subject a) ].

(** policies that accept no age at all *)
Definition impatient : policies :=
  {| requiredVCTypes := ["TaskLogCredential"];
     allowedActions := ["OrderPizza"];
     maxVCAge := 0 |}.

(** a credential of another type, for a disallowed action *)
Definition stale_props : list (string * value) :=
  [ ("type", VArr [ VStr "VerifiableCredential" ]);
    ("credentialSubject", subject (VStr "DeleteAccount")) ].

Definition presentation (credentials : list value) : value :=
  VObj [ ("verifiablePresentation",
          VObj [ ("type", VArr [ VStr "VerifiablePresentation" ]);
                 ("verifiableCredential", VArr credentials) ]) ].

(** a ServiceEndpoint credential as [issueServiceEndpointVC] builds it *)
Definition service : value :=
  VObj [ ("type", VArr [ VStr "VerifiableCredential";
                         VStr "ServiceEndpointCredential" ]);
         ("credentialSubject", VObj [ ("id", holder) ]) ].

(** a TaskLog credential with one more member, named [toString] *)
Definition unprintable : value :=
  VObj [ ("type", VArr [ VStr "VerifiableCredential"; VStr "TaskLogCredential" ]);
         ("credentialSubject", subject (VStr "OrderPizza"));
         ("toString", VNum 1) ].

(** a verifier that knows four presentations and rejects all others *)
Definition verifyPresentation (vpJwt : value) : verification :=
  match vpJwt with
  | VStr "odd.vp" => Verified (presentation [ unprintable ])
  | VStr "order.vp" => Verified (presentation [ credential (VStr "OrderPizza") ])
  | VStr "order+service.vp" =>
      Verified (presentation [ credential (VStr "OrderPizza"); service ])
  | VStr "delete.vp" => Verified (presentation [ credential (VStr "DeleteAccount") ])
  | _ => Failed "invalid_jwt"
  end.

End Sample.

(** ** The four rules of the compliance check, as the specification words
    them *)

Module Rules.
Import JS Policy.

(** (a) none of the credential's type tags is a required type *)
Definition type_missing (this : policies) (tags : list value) : bool :=
  negb (existsb
          (fun required =>
             existsb (fun tag => match tag with
                                 | VStr t => String.eqb t required
                                 | _ => false
                                 end) tags)
          (requiredVCTypes this)).

(** (b) an action is declared and it is not an allowed action *)
Definition action_disallowed (this : policies) (taskAction : value) : bool :=
  truthy taskAction && negb (listed (allowedActions this) taskAction).

(** (c) [issuedAt] is declared and lies more than [maxVCAge] seconds
    before [now]; [time] is its time value in milliseconds *)
Definition too_old (this : policies) (now : Z) (issuedAt : value)
  (time : option Z) : bool :=
  truthy issuedAt
  && match time with
     | Some t => maxVCAge this * 1000 <? now - t
     | None => false
     end.

(** (d) the keys of [requiredSchema] that [credentialSubject] does not
    have, as an own or an inherited property *)
Definition missing_keys (entries : list (string * value))
  (props : list (string * value)) : list string :=
  filter (fun key => negb (has_own key props || mem key Object_prototype))
    (map fst entries).

Definition elapsed (now : Z) (time : option Z) : Z :=
  match time with Some t => (now - t) / 1000 | None => 0 end.

Definition count (b : bool) : nat := if b then 1%nat else 0%nat.

End Rules.

Module Expect.
Import JS Policy Rules.

(** how many of the four rules the claims violate *)
Definition violated_rules (this : policies) (now : Z) (tags : list value)
  (taskAction issuedAt : value) (time : option Z)
  (entries props : list (string * value)) : nat :=
  count (type_missing this tags) + count (action_disallowed this taskAction)
  + count (too_old this now issuedAt time)
  + count (match missing_keys entries props with [] => false | _ => true end).

(** the entries the four checks are to report, in the order of the checks *)
Definition expected_errors (this : policies) (now : Z) (tags : list value)
  (taskAction : value) (printed : string) (issuedAt : value)
  (time : option Z) (entries props : list (string * value)) : list violation :=
  (if type_missing this tags then [MissingVCType (requiredVCTypes this)] else [])
  ++ (if action_disallowed this taskAction then [ActionNotAllowed printed] else [])
  ++ (if too_old this now issuedAt time
      then [VCExpired (elapsed now time) (maxVCAge this)] else [])
  ++ map MissingField (missing_keys entries props).

Definition entries_of (requiredSchema : option (list (string * value)))
  : list (string * value) :=
  match requiredSchema with Some entries => entries | None => [] end.


End Expect.

(** ** The server's steps, as the protocol names them *)

Module Protocol.
Import JS Policy Server.

Definition not_revoked : revocation := {| revoked := false; reason := VNull |}.

Definition steps (n : nat) : list console_line := map Step (seq 1 n).

Section Steps.

Variable verifyPresentation : value -> verification.
Variable Date_parse : string -> option Z.
Variable nowCheck : Z.
Variable vpJwt : value.

(** Signature verification, the revocation check and the compliance
    check succeed, in that order, on the credential of the presentation,
    and [authorize] grants [authResult]. *)
Inductive passed (authResult : grant) : Prop :=
| all_checks_passed (verifiedVP credential : value) :
    verifyPresentation vpJwt = Verified verifiedVP ->
    credential_of verifiedVP = Return credential ->
    truthy credential = true ->
    checkRevocationStatus credential = Return not_revoked ->
    checkPolicyCompliance Date_parse policyValidator nowCheck credential None
      = Return {| compliant := true; errors := [] |} ->
    authorize credential = Return authResult ->
    passed authResult.

(** The attempt stopped at the first step that fails or throws:
    [stopped why n] gives the reason of that step and the number of
    steps the handler had logged before it. *)
Inductive stopped : string -> nat -> Prop :=
| verification_failed (why : string) :
    verifyPresentation vpJwt = Failed why ->
    stopped why 1
| presentation_unreadable (verifiedVP : value) (e : exn) :
    verifyPresentation vpJwt = Verified verifiedVP ->
    credential_of verifiedVP = Throw e ->
    stopped (message e) 2
| credential_missing (verifiedVP credential : value) :
    verifyPresentation vpJwt = Verified verifiedVP ->
    credential_of verifiedVP = Return credential ->
    truthy credential = false ->
    stopped "VC를 찾을 수 없습니다" 2
| revocation_check_threw (verifiedVP credential : value) (e : exn) :
    verifyPresentation vpJwt = Verified verifiedVP ->
    credential_of verifiedVP = Return credential ->
    truthy credential = true ->
    checkRevocationStatus credential = Throw e ->
    stopped (message e) 3
| compliance_check_threw (verifiedVP credential : value) (e : exn) :
    verifyPresentation vpJwt = Verified verifiedVP ->
    credential_of verifiedVP = Return credential ->
    truthy credential = true ->
    checkRevocationStatus credential = Return not_revoked ->
    checkPolicyCompliance Date_parse policyValidator nowCheck credential None
      = Throw e ->
    stopped (message e) 4
| not_compliant (verifiedVP credential : value) (r : compliance) :
    verifyPresentation vpJwt = Verified verifiedVP ->
    credential_of verifiedVP = Return credential ->
    truthy credential = true ->
    checkRevocationStatus credential = Return not_revoked ->
    checkPolicyCompliance Date_parse policyValidator nowCheck credential None
      = Return r ->
    compliant r = false ->
    stopped ("정책 위반: " ++ join ", " (map violation_message (errors r))) 4.

End Steps.

(** the [try] block ended at [throw new Error(`VC가 폐기되었습니다: ...`)] *)
Definition rejected_as_revoked (run : logged response) : bool :=
  match snd run with
  | Throw e => match source e with RevokedVC => true | _ => false end
  | Return _ => false
  end.

End Protocol.

(** ** What the age check finds at a given time *)

Module Clock.
Import JS Policy Rules.

Section Outcome.

Variable Date_parse : string -> option Z.

(** The outcome of rule (c) for the claims at the time [now]: [Some s]
    when the credential is too old, [s] being the whole seconds elapsed
    since [issuedAt]; [None] when it is not (no truthy [issuedAt], an
    [issuedAt] that is no date, or an age within [maxVCAge]). *)
Definition age_outcome (this : policies) (now : Z) (claims : value)
  : option Z :=
  match credentialSubject_of claims with
  | Return subject =>
      let issuedAt := read subject f_issuedAt in
      match Date_getTime Date_parse issuedAt with
      | Return time =>
          if too_old this now issuedAt time then Some (elapsed now time)
          else None
      | Throw _ => None
      end
  | Throw _ => None
  end.

End Outcome.

End Clock.

(** * The rest of the server, the issuer and the client

    The handlers of [2_server.js] besides [/a2a/authenticate], the
    payloads of [issuer.js] and the fetch interceptor of [3_client.js].
    Signing ([createVerifiableCredentialJwt],
    [createVerifiablePresentationJwt]), [Date.prototype.toISOString],
    [Math.random] and the split of a string into UTF-16 code units are
    supplied by the environment.  An object is the list of its own
    members in the order of enumeration.  Of these handlers only the
    response is modelled, together with the string conversions of their
    log lines. *)

(** ** More of the runtime *)

Module Access.
Import JS.

(** The identifiers these functions read; no built-in prototype defines
    one of them. *)
Inductive member : Type :=
| m_authToken | m_taskType | m_taskData | m_menu | m_size | m_serverVP
| m_issuer | m_task | m_holderDID | m_headers.

Definition member_name (m : member) : string :=
  match m with
  | m_authToken => "authToken"
  | m_taskType => "taskType"
  | m_taskData => "taskData"
  | m_menu => "menu"
  | m_size => "size"
  | m_serverVP => "serverVP"
  | m_issuer => "issuer"
  | m_task => "task"
  | m_holderDID => "holderDID"
  | m_headers => "headers"
  end.

(** [v.m] on a value that is known not to be null or undefined *)
Definition pick (v : value) (m : member) : value :=
  match v with
  | VObj props =>
      match own (member_name m) props with Some x => x | None => VUndefined end
  | _ => VUndefined
  end.

(** [v.m] *)
Definition get_member (v : value) (m : member) : result value :=
  match v with
  | VUndefined =>
      TypeError ("Cannot read properties of undefined (reading '"
                   ++ member_name m ++ "')")
  | VNull =>
      TypeError ("Cannot read properties of null (reading '"
                   ++ member_name m ++ "')")
  | _ => Return (pick v m)
  end.

(** [v[0]] *)
Definition at0 (v : value) : result value :=
  match v with
  | VUndefined => TypeError "Cannot read properties of undefined (reading '0')"
  | VNull => TypeError "Cannot read properties of null (reading '0')"
  | _ => Return (first_opt v)
  end.

(** [const { m, ... } = v]: the pattern needs an object to take apart. *)
Definition destructure (v : value) (first : member) (what : string)
  : result unit :=
  match v with
  | VUndefined =>
      TypeError ("Cannot destructure property '" ++ member_name first
                   ++ "' of '" ++ what ++ "' as it is undefined.")
  | VNull =>
      TypeError ("Cannot destructure property '" ++ member_name first
                   ++ "' of '" ++ what ++ "' as it is null.")
  | _ => Return tt
  end.

(** an object literal or an assignment that defines [k] last *)
Fixpoint assign (k : string) (v : value) (props : list (string * value))
  : list (string * value) :=
  match props with
  | [] => [ (k, v) ]
  | (k', v') :: rest =>
      if String.eqb k k' then (k', v) :: rest
      else (k', v') :: assign k v rest
  end.

Definition indexed (elems : list value) : list (string * value) :=
  combine (map (fun i => decimal (Z.of_nat i)) (seq 0 (length elems))) elems.

Section Units.

(** the UTF-16 code units of a string, each as a string *)
Variable String_units : string -> list string.

(** the own enumerable members that [{...v}] and [Object.keys(v)] see *)
Definition enumerable (v : value) : list (string * value) :=
  match v with
  | VObj props => props
  | VArr elems => indexed elems
  | VStr s => indexed (map VStr (String_units s))
  | _ => []
  end.

Definition Object_keys (v : value) : list string := map fst (enumerable v).

End Units.

End Access.

(** ** issuer.js: class VCIssuer *)

Module Issuer.
Import JS.

Definition context : value :=
  VArr [ VStr "https://www.w3.org/2018/credentials/v1" ].

(** the [vcPayload] of [issueTaskLogVC] *)
Definition taskLog_payload (nbf : Z) (issuedAt : string)
  (holderDID taskData : value) : value :=
  VObj [ ("sub", holderDID);
         ("nbf", VNum nbf);
         ("vc",
          VObj [ ("@context", context);
                 ("type", VArr [ VStr "VerifiableCredential";
                                 VStr "TaskLogCredential" ]);
                 ("credentialSubject",
                  VObj [ ("id", holderDID);
                         ("taskLog", taskData);
                         ("issuedAt", VStr issuedAt) ]) ]) ].

(** the [vcPayload] of [issueServiceEndpointVC] *)
Definition serviceEndpoint_payload (nbf : Z) (issuedAt : string)
  (serverDID serviceInfo : value) : value :=
  VObj [ ("sub", serverDID);
         ("nbf", VNum nbf);
         ("vc",
          VObj [ ("@context", context);
                 ("type", VArr [ VStr "VerifiableCredential";
                                 VStr "ServiceEndpointCredential" ]);
                 ("credentialSubject",
                  VObj [ ("id", serverDID);
                         ("serviceEndpoint", serviceInfo);
                         ("issuedAt", VStr issuedAt) ]) ]) ].

Section Issuing.

Variable Date_toISOString : Z -> string.

(** [createVerifiableCredentialJwt(vcPayload, { did: this.did, signer:
    this.signer })] *)
Variable createVerifiableCredentialJwt : value -> result string.

(** [now] is the reading of [Date.now()], [today] that of [new Date()]. *)
Definition issueTaskLogVC (now today : Z) (holderDID taskData : value)
  : result string :=
  _ <- toString holderDID ;;
  createVerifiableCredentialJwt
    (taskLog_payload (now / 1000) (Date_toISOString today) holderDID taskData).

Definition issueServiceEndpointVC (now today : Z) (serverDID serviceInfo : value)
  : result string :=
  _ <- toString serverDID ;;
  createVerifiableCredentialJwt
    (serviceEndpoint_payload (now / 1000) (Date_toISOString today)
       serverDID serviceInfo).

End Issuing.

End Issuer.

(** ** 2_server.js: the other handlers *)

Module Endpoints.
Import JS Policy Server Access.

(** [res.status(500).json({ error: 'AI task processing failed', details:
    error.message })] *)
Definition task_failure (details : string) : response :=
  {| status := 500;
     body := VObj [ ("error", VStr "AI task processing failed");
                    ("details", VStr details) ] |}.

(** the readings of the clock in [/ai/task], in the order of the code:
    [Date.now()], [new Date()] in the case, [Date.now()], [new Date()] *)
Record readings : Type := {
  startTime : Z;
  caseTime : Z;
  endTime : Z;
  stampTime : Z
}.

(** [let serverVC = null; let serverVP = null; let serverInitialized =
    false] *)
Record server_state : Type := {
  serverVC : value;
  serverVP : value;
  serverInitialized : bool
}.

Definition fresh_state : server_state :=
  {| serverVC := VNull; serverVP := VNull; serverInitialized := false |}.

(** the [vp] payload both sides sign *)
Definition presentation_payload (credentials : list value) : value :=
  VObj [ ("vp",
          VObj [ ("@context", Issuer.context);
                 ("type", VArr [ VStr "VerifiablePresentation" ]);
                 ("verifiableCredential", VArr credentials) ]) ].

Definition serviceInfo : value :=
  VObj [ ("url", VStr "http://localhost:3000");
         ("protocols", VArr [ VStr "A2A"; VStr "DID-Auth" ]);
         ("version", VStr "1.0") ].

Section Handlers.

Variable verifyPresentation : value -> verification.
Variable Date_toISOString : Z -> string.
Variable String_units : string -> list string.
Variable createVerifiableCredentialJwt : value -> result string.
Variable createVerifiablePresentationJwt : value -> result string.

(** [serverDID] and [issuer.did], fixed when the process starts *)
Variable serverDID : string.
Variable issuerDID : string.

(** *** POST /ai/task *)

(** the [switch]; [suffix] is
    [Math.random().toString(36).substr(2, 9).toUpperCase()] *)
Definition taskDetails (suffix : string) (today : Z) (taskType taskData : value)
  : result value :=
  match taskType with
  | VStr "OrderPizza" =>
      menu <- get_member taskData m_menu ;;
      size <- get_member taskData m_size ;;
      Return (VObj [ ("orderId", VStr ("ORD-" ++ suffix));
                     ("menu", if truthy menu then menu else VStr "페퍼로니 피자");
                     ("size", if truthy size then size else VStr "L");
                     ("price", VNum 25000);
                     ("estimatedDelivery", VStr "30분");
                     ("recommendation", VStr "콜라 추가 (+2000원)") ])
  | VStr "QueryStatus" =>
      Return (VObj [ ("status", VStr "active");
                     ("lastUpdate", VStr (Date_toISOString today));
                     ("uptime", VStr "99.9%") ])
  | VStr "UpdateProfile" =>
      Return (VObj [ ("updated", VBool true);
                     ("fields",
                      VArr (map VStr
                              (Object_keys String_units
                                 (if truthy taskData then taskData
                                  else VObj []))));
                     ("timestamp", VStr (Date_toISOString today)) ])
  | _ =>
      Return (VObj [ ("message", VStr "Unknown task type");
                     ("received", taskType) ])
  end.

(** the [try] block; [reqBody] is [req.body] *)
Definition ai_task_attempt (suffix : string) (clock : readings)
  (reqBody : value) : result response :=
  _ <- destructure reqBody m_authToken "req.body" ;;
  let authToken := pick reqBody m_authToken in
  let taskType := pick reqBody m_taskType in
  let taskData := pick reqBody m_taskData in
  if negb (truthy authToken)
  then Return (rejection 401 "인증 토큰이 필요합니다")
  else
    _ <- toString taskType ;;
    taskDetails <- taskDetails suffix (caseTime clock) taskType taskData ;;
    let processingTime := endTime clock - startTime clock in
    Return {| status := 200;
              body := VObj [ ("success", VBool true);
                             ("taskType", taskType);
                             ("details", taskDetails);
                             ("processingTime", VNum processingTime);
                             ("timestamp",
                              VStr (Date_toISOString (stampTime clock))) ] |}.

Definition ai_task (suffix : string) (clock : readings) (reqBody : value)
  : response :=
  match ai_task_attempt suffix clock reqBody with
  | Return res => res
  | Throw error => task_failure (message error)
  end.

(** *** POST /a2a/message, of the first version of the server *)

(** the [try] block *)
Definition a2a_message_attempt (vpJwt : value) : result response :=
  verified <- await_verifyPresentation verifyPresentation vpJwt ;;
  presentation <- get verified f_verifiablePresentation ;;
  credentials <- get presentation f_verifiableCredential ;;
  vc <- at0 credentials ;;
  credentialSubject <- get vc f_credentialSubject ;;
  clientDid <- get credentialSubject f_id ;;
  let taskInfo := pick credentialSubject m_task in
  printed <- toString clientDid ;;
  Return {| status := 200;
            body := VObj [ ("status", VStr "success");
                           ("message",
                            VStr ("반갑습니다 " ++ printed
                                    ++ "님, 블록체인에서 당신의 Task VC를 확인했습니다!")) ] |}.

(** [vpJwt] is [req.headers['x-a2a-did-vp']]. *)
Definition a2a_message (vpJwt : value) : response :=
  if negb (truthy vpJwt)
  then rejection 401 "Authentication Required (VP)"
  else
    match a2a_message_attempt vpJwt with
    | Return res => res
    | Throw _ => rejection 403 "유효하지 않은 DID 서명입니다."
    end.

(** *** POST /api/verify-server-vp *)

Definition verify_server_vp_attempt (reqBody : value) : result response :=
  _ <- destructure reqBody m_serverVP "req.body" ;;
  let serverVP := pick reqBody m_serverVP in
  if negb (truthy serverVP)
  then Return (rejection 400 "serverVP is required")
  else
    verifiedVP <- await_verifyPresentation verifyPresentation serverVP ;;
    issuer <- get_member verifiedVP m_issuer ;;
    Return {| status := 200;
              body := VObj [ ("verified", VBool true); ("issuer", issuer) ] |}.

Definition verify_server_vp (reqBody : value) : response :=
  match verify_server_vp_attempt reqBody with
  | Return res => res
  | Throw error => rejection 400 (message error)
  end.

(** *** initializeServer and GET /agent-card *)

(** The assignments made before an exception stay. *)
Definition initializeServer (now today : Z) (st : server_state)
  : server_state * result unit :=
  match Issuer.issueServiceEndpointVC Date_toISOString
          createVerifiableCredentialJwt now today (VStr serverDID) serviceInfo
  with
  | Throw e => (st, Throw e)
  | Return vc =>
      match createVerifiablePresentationJwt (presentation_payload [ VStr vc ])
      with
      | Throw e =>
          ({| serverVC := VStr vc;
              serverVP := serverVP st;
              serverInitialized := serverInitialized st |}, Throw e)
      | Return vp =>
          ({| serverVC := VStr vc;
              serverVP := VStr vp;
              serverInitialized := true |}, Return tt)
      end
  end.

Definition agent_card_body (st : server_state) : value :=
  VObj [ ("name", VStr "Burger Server Agent");
         ("description", VStr "DID 기반 양방향 인증 에이전트");
         ("did", VStr serverDID);
         ("serverVP", serverVP st);
         ("securitySchemes",
          VObj [ ("did_auth",
                  VObj [ ("type", VStr "did-vc");
                         ("description",
                          VStr "TaskLog VC가 포함된 VP를 제출하세요.");
                         ("issuerDID", VStr issuerDID) ]) ]) ].

(** The handler has no [try]: when the initialization throws, it sends
    no response. *)
Definition agent_card (now today : Z) (st : server_state)
  : server_state * option response :=
  let (st', outcome) :=
    if serverInitialized st then (st, Return tt)
    else initializeServer now today st in
  match outcome with
  | Return _ => (st', Some {| status := 200; body := agent_card_body st' |})
  | Throw _ => (st', None)
  end.

(** requests for the agent card served one after the other, each with
    its two readings of the clock *)
Fixpoint agent_cards (requests : list (Z * Z)) (st : server_state)
  : server_state * list (option response) :=
  match requests with
  | [] => (st, [])
  | (now, today) :: rest =>
      let (st1, res) := agent_card now today st in
      let (st2, more) := agent_cards rest st1 in
      (st2, res :: more)
  end.

(** The start of the process: [await initializeServer()] and then
    [app.listen].  The result is the state in which the server starts to
    listen; there is none when the initialization throws. *)
Definition listening (now today : Z) : option server_state :=
  match initializeServer now today fresh_state with
  | (st, Return _) => Some st
  | (_, Throw _) => None
  end.

End Handlers.

(** [taskType] selects the first case of the [switch] *)
Definition orders_pizza (taskType : value) : bool :=
  match taskType with
  | VStr "OrderPizza" => true
  | _ => false
  end.

(** what [/ai/task] is to answer, by the shape of the request *)
Definition expected_status (reqBody : value) : Z :=
  if nullish reqBody then 500
  else if negb (truthy (pick reqBody m_authToken)) then 401
  else if negb (Shape.printable (pick reqBody m_taskType)) then 500
  else if orders_pizza (pick reqBody m_taskType)
          && nullish (pick reqBody m_taskData) then 500
  else 200.

End Endpoints.

(** ** 3_client.js: the client and its fetch interceptor *)

Module Client.
Import JS Access.

(** what is handed to [fetch] *)
Record request : Type := {
  url : string;
  options : list (string * value)
}.

(** the readings of the clock in one intercepted request: for the
    task's timestamp, and the two of the issuer *)
Record readings : Type := {
  taskTime : Z;
  issueTime : Z;
  issueDate : Z
}.

(** the task log of [customFetch]: [{ action: "OrderPizza", timestamp:
    Date.now() }] *)
Definition taskContext_at (clock : readings) : value :=
  VObj [ ("action", VStr "OrderPizza"); ("timestamp", VNum (taskTime clock)) ].

Section Interceptor.

Variable String_units : string -> list string.
Variable Date_toISOString : Z -> string.

(** [createVerifiablePresentationJwt(vpPayload, { did: this.didString,
    signer: this.signer })] *)
Variable createVerifiablePresentationJwt : value -> result string.

Variable didString : string.

(** [generateVP(taskContext, issuer)]; an issuer is its signing function,
    [None] is a call that passes no issuer. *)
Definition generateVP (clock : readings) (taskContext : value)
  (issuer : option (value -> result string)) : result string :=
  match issuer with
  | None =>
      TypeError "Cannot read properties of undefined (reading 'issueTaskLogVC')"
  | Some createVerifiableCredentialJwt =>
      vcJwt <- Issuer.issueTaskLogVC Date_toISOString
                 createVerifiableCredentialJwt (issueTime clock)
                 (issueDate clock) (VStr didString) taskContext ;;
      createVerifiablePresentationJwt
        (Endpoints.presentation_payload [ VStr vcJwt ])
  end.

(** [customFetch(url, options = {})] of [run]; [options] is [None] when
    the caller passes one argument.  [issuer] is what the call of
    [generateVP] passes. *)
Definition customFetch (issuer : option (value -> result string))
  (clock : readings) (url : string) (options : option (list (string * value)))
  : result request :=
  let options := match options with Some o => o | None => [] end in
  if String_includes url "/agent-card"
  then Return {| url := url; options := options |}
  else
    vp <- generateVP clock (taskContext_at clock) issuer ;;
    let headers :=
      assign "x-a2a-did-vp" (VStr vp)
        (enumerable String_units (pick (VObj options) m_headers)) in
    Return {| url := url; options := assign "headers" (VObj headers) options |}.

(** [A2AClient.getAgentCard]: the request it makes through [this.fetch] *)
Definition getAgentCard (issuer : option (value -> result string))
  (clock : readings) (agentUrl : string) : result request :=
  customFetch issuer clock (agentUrl ++ "/agent-card") None.

(** [A2AClient.sendMessage]; [text] is [JSON.stringify(msg)] *)
Definition sendMessage (issuer : option (value -> result string))
  (clock : readings) (agentUrl : string) (text : string) : result request :=
  customFetch issuer clock (agentUrl ++ "/a2a/message")
    (Some [ ("method", VStr "POST");
            ("headers", VObj [ ("Content-Type", VStr "application/json") ]);
            ("body", VStr text) ]).

End Interceptor.

(** no suffix of [needle] begins [tail], so that [needle] cannot start
    in a string and end in a [tail] appended to it *)
Fixpoint no_overlap (needle tail : string) : bool :=
  match needle with
  | EmptyString => true
  | String _ rest => negb (String.prefix needle tail) && no_overlap rest tail
  end.

End Client.

(** ** The four kinds of violation *)

Module Kinds.
Import JS Policy.

Inductive kind : Type := OfType | OfAction | OfAge | OfSchema.

(** the check that pushes a violation *)
Definition kind_of (e : violation) : kind :=
  match e with
  | MissingVCType _ => OfType
  | ActionNotAllowed _ => OfAction
  | VCExpired _ _ => OfAge
  | MissingField _ => OfSchema
  end.

End Kinds.

(** ** Values for the examples of these functions *)

Module Fixture.
Import JS Policy Server Access.

(** a [toISOString] that knows the date of [Sample.issued] *)
Definition Date_toISOString (t : Z) : string :=
  if t =? Sample.issued_ms then Sample.issued else "1970-01-01T00:00:00.000Z".

(** strings of the examples are ASCII: one unit per byte *)
Fixpoint String_units (s : string) : list string :=
  match s with
  | EmptyString => []
  | String c rest => String c EmptyString :: String_units rest
  end.

(** a signer that wraps the type of what it signs *)
Definition sign (payload : value) : result string :=
  match toString (first_opt (read (read payload f_vc) f_type)) with
  | Return kind => Return ("jwt:" ++ kind)
  | Throw e => Throw e
  end.

Definition sign_presentation (payload : value) : result string :=
  Return "jwt:presentation".

(** a signer whose key is unusable *)
Definition broken (payload : value) : result string :=
  Throw (Exn Verifier "invalid private key").

Definition clock : Endpoints.readings :=
  {| Endpoints.startTime := Sample.issued_ms + 20000;
     Endpoints.caseTime := Sample.issued_ms + 20001;
     Endpoints.endTime := Sample.issued_ms + 20002;
     Endpoints.stampTime := Sample.issued_ms + 20003 |}.

Definition client_clock : Client.readings :=
  {| Client.taskTime := Sample.issued_ms - 2;
     Client.issueTime := Sample.issued_ms - 1;
     Client.issueDate := Sample.issued_ms |}.

Definition task_request (token taskType taskData : value) : value :=
  VObj [ ("authToken", token); ("taskType", taskType); ("taskData", taskData) ].

(** the TaskLog credential of [Sample], with the members [issuer] and
    [proof] that a verifier adds *)
Definition attributed (issuer : string) : value :=
  VObj [ ("issuer", VObj [ ("id", VStr issuer) ]);
         ("type", VArr [ VStr "VerifiableCredential"; VStr "TaskLogCredential" ]);
         ("credentialSubject", Sample.subject (VStr "OrderPizza"));
         ("proof", VObj [ ("type", VStr "JwtProof2020") ]) ].

(** claims whose [type] is one string *)
Definition mistyped (type : string) : value :=
  VObj [ ("type", VStr type);
         ("credentialSubject", Sample.subject (VStr "OrderPizza")) ].

End Fixture.

(** * Properties *)

Module Facts.
Import JS Policy Server Shape.

(** *** The exception monad *)

Lemma bind_Return {A B : Type} (r : result A) (k : A -> result B) (b : B) :
  bind r k = Return b -> exists a, r = Return a /\ k a = Return b.
Proof.
  destruct r as [a|e]; simpl; intro H; [exists a; auto | discriminate].
Qed.

Lemma bind_Throw {A B : Type} (r : result A) (k : A -> result B) (e : exn) :
  bind r k = Throw e ->
  r = Throw e \/ exists a, r = Return a /\ k a = Throw e.
Proof.
  destruct r as [a|e']; simpl; intro H.
  - right; exists a; split; [reflexivity | exact H].
  - left; congruence.
Qed.

Ltac unbind H :=
  let a := fresh "a" in
  let Ha := fresh "Ha" in
  apply bind_Return in H; destruct H as (a & Ha & H).

(** *** What each check can push *)

Section Checks.

Variable Date_parse : string -> option Z.
Variable this : policies.

Lemma verdict_errors (l : list violation) : errors (verdict l) = l.
Proof. destruct l; reflexivity. Qed.

Lemma verdict_compliant (l : list violation) :
  compliant (verdict l) = true <-> l = [].
Proof. destruct l; simpl; split; congruence. Qed.

Lemma check_type_no_expiry claims e :
  check_type this claims = Return e -> existsb is_expiry e = false.
Proof.
  unfold check_type; intro H. unbind H. unbind H.
  injection H as <-. destruct a0; reflexivity.
Qed.

Lemma check_action_no_expiry subject e :
  check_action this subject = Return e -> existsb is_expiry e = false.
Proof.
  unfold check_action; intro H.
  destruct (truthy _ && negb _).
  - unbind H. injection H as <-. reflexivity.
  - injection H as <-. reflexivity.
Qed.

Lemma check_schema_no_expiry entries subject e :
  check_schema entries subject = Return e -> existsb is_expiry e = false.
Proof.
  revert e; induction entries as [|[key ty] rest IH]; simpl; intros e H.
  - injection H as <-. reflexivity.
  - unbind H. unbind H. injection H as <-.
    specialize (IH _ Ha0). destruct a; simpl; auto.
Qed.

(** [checkPolicyCompliance] returns exactly when its four checks do, with
    the concatenation of what they pushed. *)
Lemma checkPolicyCompliance_Return now claims requiredSchema r :
  checkPolicyCompliance Date_parse this now claims requiredSchema = Return r <->
  exists e1 subject e2 e3 e4,
    check_type this claims = Return e1 /\
    credentialSubject_of claims = Return subject /\
    check_action this subject = Return e2 /\
    check_age Date_parse this now subject = Return e3 /\
    match requiredSchema with
    | Some entries => check_schema entries subject
    | None => Return []
    end = Return e4 /\
    r = verdict (e1 ++ e2 ++ e3 ++ e4).
Proof.
  unfold checkPolicyCompliance; split.
  - intro H. unbind H. unbind H. unbind H. unbind H. unbind H.
    injection H as <-. exists a, a0, a1, a2, a3. auto 10.
  - intros (e1 & s & e2 & e3 & e4 & H1 & H2 & H3 & H4 & H5 & ->).
    rewrite H1; simpl. rewrite H2; simpl. rewrite H3; simpl.
    rewrite H4; simpl. rewrite H5; simpl. reflexivity.
Qed.

End Checks.
End Facts.

Module Throws.
Import JS Policy Server Shape Facts.

(** Only the engine throws inside the policy engine. *)
Lemma toString_Throw v e : toString v = Throw e -> source e = Engine.
Proof.
  revert e. induction v as [| | b | n | s | elems IH | props]
    using value_elems_ind; intro e; simpl; try discriminate.
  - induction IH as [|x rest Hx _ IHrest]; [discriminate|].
    intro H. apply bind_Throw in H as [H|(s & _ & H)].
    + destruct x; try discriminate; apply (Hx _ H).
    + destruct rest as [|y rest']; [discriminate|].
      apply bind_Throw in H as [H|(r & _ & H)]; [apply (IHrest H) | discriminate].
  - destruct (has_own "toString" props); [|discriminate].
    intro H. injection H as <-. reflexivity.
Qed.

Lemma get_Throw v f e : get v f = Throw e -> source e = Engine.
Proof.
  unfold get, TypeError. destruct v; try discriminate;
    intro H; injection H as <-; reflexivity.
Qed.

Lemma includes_Throw v s e : includes v s = Throw e -> source e = Engine.
Proof.
  unfold TypeError. destruct v; simpl; try discriminate;
    intro H; injection H as <-; reflexivity.
Qed.

Lemma has_property_Throw k v e : has_property k v = Throw e -> source e = Engine.
Proof.
  unfold TypeError. destruct v; simpl; try discriminate;
    intro H; injection H as <-; reflexivity.
Qed.

Lemma credentialSubject_of_Throw claims e :
  credentialSubject_of claims = Throw e -> source e = Engine.
Proof.
  unfold credentialSubject_of. intro H.
  apply bind_Throw in H as [H|(s & _ & H)]; [apply (get_Throw _ _ _ H)|].
  destruct (truthy s); discriminate.
Qed.

Lemma check_type_Throw this claims e :
  check_type this claims = Throw e -> source e = Engine.
Proof.
  unfold check_type, vcTypes_of. intro H.
  apply bind_Throw in H as [H|(vcTypes & _ & H)].
  - apply bind_Throw in H as [H|(t & _ & H)]; [apply (get_Throw _ _ _ H)|].
    destruct (truthy t); discriminate.
  - apply bind_Throw in H as [H|(b & _ & H)]; [|discriminate].
    induction (requiredVCTypes this) as [|r rest IH]; [discriminate|].
    simpl in H. apply bind_Throw in H as [H|(b & _ & H)].
    + apply (includes_Throw _ _ _ H).
    + destruct b; [discriminate | apply (IH H)].
Qed.

Lemma check_action_Throw this subject e :
  check_action this subject = Throw e -> source e = Engine.
Proof.
  unfold check_action. destruct (truthy _ && negb _); [|discriminate].
  intro H. apply bind_Throw in H as [H|(s & _ & H)];
    [apply (toString_Throw _ _ H) | discriminate].
Qed.

Lemma check_age_Throw Date_parse this now subject e :
  check_age Date_parse this now subject = Throw e -> source e = Engine.
Proof.
  unfold check_age. destruct (truthy _); [|discriminate].
  intro H. apply bind_Throw in H as [H|(time & _ & H)].
  - unfold Date_getTime in H.
    destruct (read subject f_issuedAt); try discriminate;
      (apply bind_Throw in H as [H|(s & _ & H)];
       [apply (toString_Throw _ _ H) | discriminate]).
  - destruct time; discriminate.
Qed.

Lemma check_schema_Throw entries subject e :
  check_schema entries subject = Throw e -> source e = Engine.
Proof.
  induction entries as [|[key ty] rest IH]; simpl; [discriminate|].
  intro H. apply bind_Throw in H as [H|(b & _ & H)];
    [apply (has_property_Throw _ _ _ H)|].
  apply bind_Throw in H as [H|(more & _ & H)]; [apply (IH H) | discriminate].
Qed.

Lemma checkPolicyCompliance_Throw Date_parse this now claims requiredSchema e :
  checkPolicyCompliance Date_parse this now claims requiredSchema = Throw e ->
  source e = Engine.
Proof.
  unfold checkPolicyCompliance. intro H.
  apply bind_Throw in H as [H|(e1 & _ & H)]; [apply (check_type_Throw _ _ _ H)|].
  apply bind_Throw in H as [H|(s & _ & H)];
    [apply (credentialSubject_of_Throw _ _ H)|].
  apply bind_Throw in H as [H|(e2 & _ & H)]; [apply (check_action_Throw _ _ _ H)|].
  apply bind_Throw in H as [H|(e3 & _ & H)];
    [apply (check_age_Throw _ _ _ _ _ H)|].
  apply bind_Throw in H as [H|(e4 & _ & H)]; [|discriminate].
  destruct requiredSchema; [apply (check_schema_Throw _ _ _ H) | discriminate].
Qed.

Lemma checkRevocationStatus_Throw vcId e :
  checkRevocationStatus vcId = Throw e -> source e = Engine.
Proof.
  unfold checkRevocationStatus. intro H.
  apply bind_Throw in H as [H|(s & _ & H)];
    [apply (toString_Throw _ _ H) | discriminate].
Qed.

End Throws.

Module PolicyFacts.
Import JS Policy Server Shape Facts.

Section Returns.

Variable Date_parse : string -> option Z.
Variable this : policies.

Lemma some_included_returns required vcTypes :
  sequence vcTypes = true -> exists b, some_included required vcTypes = Return b.
Proof.
  intro Hseq. induction required as [|r rest IH]; simpl.
  - eauto.
  - destruct vcTypes; try discriminate; simpl.
    + destruct (String_includes s r); eauto.
    + destruct (existsb _ elems); eauto.
Qed.

Lemma check_type_returns claims vcTypes :
  vcTypes_of claims = Return vcTypes ->
  match requiredVCTypes this with [] => true | _ => sequence vcTypes end = true ->
  exists e1, check_type this claims = Return e1.
Proof.
  intros Hv Hs. unfold check_type. rewrite Hv; simpl.
  destruct (requiredVCTypes this) as [|r rest] eqn:E.
  - simpl. eauto.
  - destruct (some_included_returns (r :: rest) vcTypes Hs) as [b Hb].
    rewrite Hb; simpl. eauto.
Qed.

Lemma check_action_returns subject :
  printable (taskAction_of subject) = true ->
  exists e2, check_action this subject = Return e2.
Proof.
  unfold printable, check_action. intro H.
  destruct (toString (taskAction_of subject)); try discriminate.
  destruct (truthy _ && negb _); simpl; eauto.
Qed.

Lemma Date_getTime_returns v :
  printable v = true -> exists time, Date_getTime Date_parse v = Return time.
Proof.
  unfold printable. destruct v; simpl; eauto.
  - destruct ((fix joined (l : list value) : result string := _) elems);
      simpl; [eauto | discriminate].
  - destruct (has_own "toString" props); simpl; [discriminate | eauto].
Qed.

Lemma check_age_returns now subject :
  printable (read subject f_issuedAt) = true ->
  exists e3, check_age Date_parse this now subject = Return e3.
Proof.
  intro H. unfold check_age.
  destruct (truthy (read subject f_issuedAt)); [|eauto].
  destruct (Date_getTime_returns _ H) as [[t|] Ht]; rewrite Ht; simpl; eauto.
Qed.

Lemma check_schema_returns entries subject :
  object_like subject = true ->
  exists e4, check_schema entries subject = Return e4.
Proof.
  intro H. induction entries as [|[key ty] rest [e IH]]; simpl.
  - eauto.
  - destruct subject; try discriminate; simpl; rewrite IH; simpl; eauto.
Qed.

(** Well-shaped claims are checked to the end. *)
Lemma well_shaped_returns now claims requiredSchema :
  well_shaped this claims requiredSchema = true ->
  exists r, checkPolicyCompliance Date_parse this now claims requiredSchema = Return r.
Proof.
  unfold well_shaped. intro H.
  destruct (vcTypes_of claims) as [vcTypes|] eqn:Hv; try discriminate.
  destruct (credentialSubject_of claims) as [subject|] eqn:Hs; try discriminate.
  apply andb_prop in H as [H H4]. apply andb_prop in H as [H H3].
  apply andb_prop in H as [H1 H2].
  destruct (check_type_returns _ _ Hv H1) as [e1 E1].
  destruct (check_action_returns _ H2) as [e2 E2].
  destruct (check_age_returns now _ H3) as [e3 E3].
  assert (exists e4, match requiredSchema with
                     | Some entries => check_schema entries subject
                     | None => Return []
                     end = Return e4) as [e4 E4].
  { destruct requiredSchema as [[|kv rest]|]; [simpl; eauto| |eauto].
    apply check_schema_returns. exact H4. }
  exists (verdict (e1 ++ e2 ++ e3 ++ e4)).
  apply checkPolicyCompliance_Return. exists e1, subject, e2, e3, e4. auto 10.
Qed.





(** [ageInSeconds > max], on integers *)
Lemma exceeds_ms now t max :
  exceeds (ageInSeconds now t) max = (max * 1000 <? now - t).
Proof.
  unfold exceeds, ageInSeconds, Qle_bool; simpl.
  destruct (Z.leb_spec ((now - t) * 1) (max * 1000));
    destruct (Z.ltb_spec (max * 1000) (now - t)); simpl; auto; lia.
Qed.

Lemma check_age_dated now subject t :
  truthy (read subject f_issuedAt) = true ->
  Date_getTime Date_parse (read subject f_issuedAt) = Return (Some t) ->
  check_age Date_parse this now subject =
    Return (if maxVCAge this * 1000 <? now - t
            then [VCExpired ((now - t) / 1000) (maxVCAge this)]
            else []).
Proof.
  intros Ht Hd. unfold check_age. rewrite Ht, Hd; simpl.
  rewrite exceeds_ms. unfold ageInSeconds, Qfloor. reflexivity.
Qed.

Lemma check_age_undated now subject :
  truthy (read subject f_issuedAt) = false ->
  check_age Date_parse this now subject = Return [].
Proof. intro H. unfold check_age. rewrite H. reflexivity. Qed.

Lemma reports_expiry_parts e1 e2 e3 e4 :
  existsb is_expiry e1 = false -> existsb is_expiry e2 = false ->
  existsb is_expiry e4 = false ->
  reports_expiry (verdict (e1 ++ e2 ++ e3 ++ e4)) = existsb is_expiry e3.
Proof.
  intros H1 H2 H4. unfold reports_expiry. rewrite verdict_errors.
  rewrite !existsb_app, H1, H2, H4. simpl. apply orb_false_r.
Qed.

(** The errors report an expiry exactly when the age check pushed one. *)
Lemma reports_expiry_age now claims requiredSchema subject r e3 :
  checkPolicyCompliance Date_parse this now claims requiredSchema = Return r ->
  credentialSubject_of claims = Return subject ->
  check_age Date_parse this now subject = Return e3 ->
  reports_expiry r = existsb is_expiry e3.
Proof.
  intros H Hs H3. apply checkPolicyCompliance_Return in H.
  destruct H as (e1 & s & e2 & e3' & e4 & E1 & Es & E2 & E3 & E4 & ->).
  assert (s = subject) as -> by congruence.
  assert (e3' = e3) as -> by congruence.
  apply reports_expiry_parts.
  - eapply check_type_no_expiry; eauto.
  - eapply check_action_no_expiry; eauto.
  - destruct requiredSchema.
    + eapply check_schema_no_expiry; eauto.
    + injection E4 as <-. reflexivity.
Qed.

End Returns.
End PolicyFacts.

Module PolicyClaims.
Import JS Policy Server Shape Rules Facts PolicyFacts.

(** C5. With maxVCAge = 3600, well-shaped claims whose issuedAt lies 3601
    seconds before the current time get an expiry violation, and claims
    whose issuedAt lies 3599 seconds before it get none: the age
    (now - issuedAt, in seconds) is compared strictly with the maximum. *)
Theorem freshness_window_is_strict :
  forall Date_parse now claims requiredSchema subject t,
    well_shaped constructor_policies claims requiredSchema = true ->
    credentialSubject_of claims = Return subject ->
    truthy (read subject f_issuedAt) = true ->
    Date_getTime Date_parse (read subject f_issuedAt) = Return (Some t) ->
    exists r,
      checkPolicyCompliance Date_parse constructor_policies now claims
        requiredSchema = Return r /\
      (now - t = 3601 * 1000 -> reports_expiry r = true) /\
      (now - t = 3599 * 1000 -> reports_expiry r = false) /\
      reports_expiry r = (3600 * 1000 <? now - t).
Proof.
  intros Date_parse now claims requiredSchema subject t Hw Hs Ht Hd.
  destruct (well_shaped_returns Date_parse _ now _ _ Hw) as [r Hr].
  exists r. split; [exact Hr|].
  pose proof (check_age_dated Date_parse constructor_policies now _ _ Ht Hd) as Ha.
  pose proof (reports_expiry_age _ _ _ _ _ _ _ _ Hr Hs Ha) as He.
  assert (reports_expiry r = (3600 * 1000 <? now - t)) as Hgen.
  { rewrite He. simpl maxVCAge. destruct (3600 * 1000 <? now - t); reflexivity. }
  repeat split; [intro E | intro E | exact Hgen]; rewrite Hgen, E; reflexivity.
Qed.

Lemma freshness_window_is_strict_witness :
  well_shaped constructor_policies (Sample.credential (VStr "OrderPizza")) None
  = true /\
  credentialSubject_of (Sample.credential (VStr "OrderPizza"))
  = Return (Sample.subject (VStr "OrderPizza")) /\
  truthy (read (Sample.subject (VStr "OrderPizza")) f_issuedAt) = true /\
  Date_getTime Sample.Date_parse
    (read (Sample.subject (VStr "OrderPizza")) f_issuedAt)
  = Return (Some Sample.issued_ms) /\
  exists r,
    checkPolicyCompliance Sample.Date_parse constructor_policies
      (Sample.issued_ms + 3601000) (Sample.credential (VStr "OrderPizza"))
      None = Return r /\
    (Sample.issued_ms + 3601000 - Sample.issued_ms = 3601 * 1000 ->
     reports_expiry r = true) /\
    (Sample.issued_ms + 3601000 - Sample.issued_ms = 3599 * 1000 ->
     reports_expiry r = false) /\
    reports_expiry r =
      (3600 * 1000 <? Sample.issued_ms + 3601000 - Sample.issued_ms).
Proof.
  repeat (split; [reflexivity|]).
  apply (freshness_window_is_strict Sample.Date_parse
           (Sample.issued_ms + 3601000) (Sample.credential (VStr "OrderPizza"))
           None (Sample.subject (VStr "OrderPizza")) Sample.issued_ms);
    reflexivity.
Defined.

(** C10. Claims whose credentialSubject has no issuedAt never get an
    expiry violation, whatever maxVCAge is: the age check is skipped. *)
Theorem absent_issuedAt_is_never_expired :
  forall Date_parse this now claims requiredSchema subject r,
    credentialSubject_of claims = Return subject ->
    read subject f_issuedAt = VUndefined ->
    checkPolicyCompliance Date_parse this now claims requiredSchema = Return r ->
    reports_expiry r = false.
Proof.
  intros Date_parse this now claims requiredSchema subject r Hs Hi Hr.
  rewrite (reports_expiry_age Date_parse this now claims requiredSchema
             subject r [] Hr Hs); [reflexivity|].
  apply check_age_undated. rewrite Hi. reflexivity.
Qed.

Lemma absent_issuedAt_is_never_expired_witness :
  credentialSubject_of (Sample.undated (VStr "OrderPizza"))
  = Return (Sample.undated_subject (VStr "OrderPizza")) /\
  read (Sample.undated_subject (VStr "OrderPizza")) f_issuedAt = VUndefined /\
  checkPolicyCompliance Sample.Date_parse Sample.impatient
    (Sample.issued_ms + 86400000) (Sample.undated (VStr "OrderPizza")) None
  = Return {| compliant := true; errors := [] |} /\
  reports_expiry {| compliant := true; errors := [] |} = false.
Proof.
  repeat (split; [reflexivity|]).
  apply (absent_issuedAt_is_never_expired Sample.Date_parse Sample.impatient
           (Sample.issued_ms + 86400000)
           (Sample.undated (VStr "OrderPizza")) None
           (Sample.undated_subject (VStr "OrderPizza")));
    reflexivity.
Defined.

End PolicyClaims.

Module ComplianceClaims.
Import JS Policy Server Shape Rules Expect Facts PolicyFacts.

Lemma some_included_tags required tags :
  some_included required (VArr tags) =
    Return (existsb
              (fun r => existsb (fun tag => match tag with
                                            | VStr t => String.eqb t r
                                            | _ => false
                                            end) tags) required).
Proof.
  induction required as [|r rest IH]; simpl; [reflexivity|].
  destruct (existsb _ tags); simpl; [reflexivity | exact IH].
Qed.

Lemma check_schema_object entries props :
  check_schema entries (VObj props) =
    Return (map MissingField (missing_keys entries props)).
Proof.
  induction entries as [|[key ty] rest IH]; [reflexivity|].
  cbn [check_schema has_property bind]. rewrite IH. cbn [bind].
  unfold missing_keys. cbn [map fst filter].
  destruct (has_own key props || mem key Object_prototype); reflexivity.
Qed.

(** C4, as stated, fails: on the claims mapping [{type: 5}] the check
    throws instead of returning an errors list, and on a TaskLog
    credential checked against a schema with two absent keys the single
    violated rule contributes two entries. *)
Lemma compliance_not_one_entry_per_rule :
  (~ exists r,
       checkPolicyCompliance Sample.Date_parse constructor_policies
         Sample.issued_ms (VObj [ ("type", VNum 5) ]) None = Return r)
  /\ (exists r,
        checkPolicyCompliance Sample.Date_parse constructor_policies
          Sample.issued_ms (Sample.credential (VStr "OrderPizza"))
          (Some [ ("menu", VStr "string"); ("size", VStr "string") ])
        = Return r
        /\ length (errors r) = 2%nat
        /\ violated_rules constructor_policies Sample.issued_ms
             [ VStr "VerifiableCredential"; VStr "TaskLogCredential" ]
             (VStr "OrderPizza") (VStr Sample.issued) (Some Sample.issued_ms)
             [ ("menu", VStr "string"); ("size", VStr "string") ]
             (Sample.subject_props (VStr "OrderPizza")) = 1%nat).
Proof.
  split.
  - intros [r H]. vm_compute in H. discriminate.
  - eexists. split; [vm_compute; reflexivity|]. split; reflexivity.
Qed.

(** C4, amended. For every claims mapping whose type tags are an array,
    whose credentialSubject is an object and whose action and issuedAt can
    be printed and dated, checkPolicyCompliance evaluates all four checks
    without short-circuiting and returns the errors in the order of the
    checks: at most one entry for a missing required type, at most one for
    a disallowed action, at most one for an expired credential, and one
    entry per requiredSchema key that is missing; compliant is true
    exactly when the list is empty. *)
Theorem compliance_collects_every_violation :
  forall Date_parse this now cprops requiredSchema tags props printed time,
    vcTypes_of (VObj cprops) = Return (VArr tags) ->
    credentialSubject_of (VObj cprops) = Return (VObj props) ->
    toString (taskAction_of (VObj props)) = Return printed ->
    Date_getTime Date_parse (read (VObj props) f_issuedAt) = Return time ->
    exists r,
      checkPolicyCompliance Date_parse this now (VObj cprops) requiredSchema
        = Return r /\
      errors r =
        expected_errors this now tags (taskAction_of (VObj props)) printed
          (read (VObj props) f_issuedAt) time (entries_of requiredSchema) props /\
      length (errors r) =
        (count (type_missing this tags)
         + count (action_disallowed this (taskAction_of (VObj props)))
         + count (too_old this now (read (VObj props) f_issuedAt) time)
         + length (missing_keys (entries_of requiredSchema) props))%nat /\
      (compliant r = true <-> errors r = []).
Proof.
  intros Date_parse this now cprops requiredSchema tags props printed time
    Hv Hs Hp Hd.
  set (errs := expected_errors this now tags (taskAction_of (VObj props))
                 printed (read (VObj props) f_issuedAt) time
                 (entries_of requiredSchema) props).
  assert (checkPolicyCompliance Date_parse this now (VObj cprops) requiredSchema
          = Return (verdict errs)) as Hr.
  { apply checkPolicyCompliance_Return.
    exists (if type_missing this tags
            then [MissingVCType (requiredVCTypes this)] else []),
      (VObj props),
      (if action_disallowed this (taskAction_of (VObj props))
       then [ActionNotAllowed printed] else []),
      (if too_old this now (read (VObj props) f_issuedAt) time
       then [VCExpired (elapsed now time) (maxVCAge this)] else []),
      (map MissingField (missing_keys (entries_of requiredSchema) props)).
    repeat split.
    - unfold check_type. rewrite Hv; simpl. rewrite some_included_tags; simpl.
      unfold type_missing. destruct (existsb _ (requiredVCTypes this)); reflexivity.
    - exact Hs.
    - unfold check_action, action_disallowed.
      destruct (truthy _ && negb _); [rewrite Hp|]; reflexivity.
    - unfold check_age, too_old.
      destruct (truthy (read (VObj props) f_issuedAt)); [|reflexivity].
      rewrite Hd; simpl. destruct time as [t|]; [|reflexivity].
      rewrite exceeds_ms. reflexivity.
    - destruct requiredSchema as [entries|]; [apply check_schema_object|reflexivity]. }
  exists (verdict errs). split; [exact Hr|]. rewrite verdict_errors.
  split; [reflexivity|]. split.
  - unfold errs, expected_errors. rewrite !length_app, length_map.
    destruct (type_missing _ _), (action_disallowed _ _), (too_old _ _ _ _);
      simpl; lia.
  - apply verdict_compliant.
Qed.

Lemma compliance_collects_every_violation_witness :
  vcTypes_of (VObj Sample.stale_props)
  = Return (VArr [ VStr "VerifiableCredential" ]) /\
  credentialSubject_of (VObj Sample.stale_props)
  = Return (VObj (Sample.subject_props (VStr "DeleteAccount"))) /\
  toString (taskAction_of (VObj (Sample.subject_props (VStr "DeleteAccount"))))
  = Return "DeleteAccount" /\
  Date_getTime Sample.Date_parse
    (read (VObj (Sample.subject_props (VStr "DeleteAccount"))) f_issuedAt)
  = Return (Some Sample.issued_ms) /\
  exists r,
    checkPolicyCompliance Sample.Date_parse constructor_policies
      (Sample.issued_ms + 3601000) (VObj Sample.stale_props)
      (Some [ ("id", VStr "string"); ("menu", VStr "string");
              ("size", VStr "string") ]) = Return r /\
    errors r =
      [ MissingVCType ["TaskLogCredential"]; ActionNotAllowed "DeleteAccount";
        VCExpired 3601 3600; MissingField "menu"; MissingField "size" ] /\
    length (errors r) = (1 + 1 + 1 + 2)%nat /\
    (compliant r = true <-> errors r = []).
Proof.
  repeat (split; [reflexivity|]).
  apply (compliance_collects_every_violation Sample.Date_parse
           constructor_policies (Sample.issued_ms + 3601000)
           Sample.stale_props
           (Some [ ("id", VStr "string"); ("menu", VStr "string");
                   ("size", VStr "string") ])
           [ VStr "VerifiableCredential" ]
           (Sample.subject_props (VStr "DeleteAccount"))
           "DeleteAccount" (Some Sample.issued_ms));
    reflexivity.
Defined.

End ComplianceClaims.

Module ClockFacts.
Import JS Policy Server Shape Rules Clock Facts PolicyFacts.

Section Outcomes.

Variable Date_parse : string -> option Z.
Variable this : policies.

(** The age check reads the clock only through its outcome. *)
Lemma check_age_same now1 now2 claims subject :
  credentialSubject_of claims = Return subject ->
  age_outcome Date_parse this now1 claims
  = age_outcome Date_parse this now2 claims ->
  check_age Date_parse this now1 subject
  = check_age Date_parse this now2 subject.
Proof.
  intro Hs. unfold age_outcome. rewrite Hs. cbn zeta.
  destruct (truthy (read subject f_issuedAt)) eqn:Ht.
  - destruct (Date_getTime Date_parse (read subject f_issuedAt))
      as [[t|]|e] eqn:Hd.
    + rewrite !(check_age_dated Date_parse this _ _ _ Ht Hd).
      unfold too_old, elapsed. rewrite Ht. cbn [andb].
      destruct (maxVCAge this * 1000 <? now1 - t),
        (maxVCAge this * 1000 <? now2 - t); intro H; try discriminate;
        [injection H as ->|]; reflexivity.
    + intros _. unfold check_age. rewrite Ht, Hd. reflexivity.
    + intros _. unfold check_age. rewrite Ht, Hd. reflexivity.
  - intros _. rewrite !check_age_undated by exact Ht. reflexivity.
Qed.

(** What the age check pushed tells its outcome. *)
Lemma check_age_outcome now1 now2 claims subject e3 :
  credentialSubject_of claims = Return subject ->
  check_age Date_parse this now1 subject = Return e3 ->
  check_age Date_parse this now2 subject = Return e3 ->
  age_outcome Date_parse this now1 claims
  = age_outcome Date_parse this now2 claims.
Proof.
  intros Hs. unfold age_outcome. rewrite Hs. cbn zeta.
  unfold too_old, elapsed.
  destruct (truthy (read subject f_issuedAt)) eqn:Ht; [|reflexivity].
  cbn [andb].
  destruct (Date_getTime Date_parse (read subject f_issuedAt))
    as [[t|]|e] eqn:Hd; try reflexivity.
  rewrite !(check_age_dated Date_parse this _ _ _ Ht Hd).
  destruct (maxVCAge this * 1000 <? now1 - t),
    (maxVCAge this * 1000 <? now2 - t); intros H1 H2;
    try reflexivity; injection H1 as <-; try discriminate.
  injection H2 as ->. reflexivity.
Qed.

(** Two checks at times with the same outcome of the age check give the
    same result. *)
Lemma same_outcome_same_result now1 now2 claims requiredSchema :
  age_outcome Date_parse this now1 claims
  = age_outcome Date_parse this now2 claims ->
  checkPolicyCompliance Date_parse this now1 claims requiredSchema
  = checkPolicyCompliance Date_parse this now2 claims requiredSchema.
Proof.
  intro H. unfold checkPolicyCompliance.
  destruct (check_type this claims) as [e1|]; [|reflexivity]. cbn [bind].
  destruct (credentialSubject_of claims) as [subject|] eqn:Hs; [|reflexivity].
  cbn [bind]. destruct (check_action this subject) as [e2|]; [|reflexivity].
  cbn [bind]. rewrite (check_age_same now1 now2 claims subject Hs H).
  reflexivity.
Qed.

(** Two checks that return the same result had the same outcome of the
    age check. *)
Lemma same_result_same_outcome now1 now2 claims requiredSchema r :
  checkPolicyCompliance Date_parse this now1 claims requiredSchema = Return r ->
  checkPolicyCompliance Date_parse this now2 claims requiredSchema = Return r ->
  age_outcome Date_parse this now1 claims
  = age_outcome Date_parse this now2 claims.
Proof.
  intros H1 H2.
  apply checkPolicyCompliance_Return in H1
    as (e1 & s & e2 & e3 & e4 & T1 & S1 & A1 & G1 & C1 & ->).
  apply checkPolicyCompliance_Return in H2
    as (e1' & s' & e2' & e3' & e4' & T2 & S2 & A2 & G2 & C2 & V).
  assert (e1' = e1) as -> by congruence.
  assert (s' = s) as -> by congruence.
  assert (e2' = e2) as -> by congruence.
  assert (e4' = e4) as -> by congruence.
  assert (e3' = e3) as ->.
  { assert (e1 ++ e2 ++ e3' ++ e4 = e1 ++ e2 ++ e3 ++ e4)%list as E.
    { rewrite <- (verdict_errors (e1 ++ e2 ++ e3' ++ e4)),
        <- (verdict_errors (e1 ++ e2 ++ e3 ++ e4)), V. reflexivity. }
    apply app_inv_head in E. apply app_inv_head in E.
    apply app_inv_tail in E. exact E. }
  apply (check_age_outcome now1 now2 claims s e3 S1 G1 G2).
Qed.

(** Within the window there is nothing to report. *)
Lemma age_outcome_within now claims subject t :
  credentialSubject_of claims = Return subject ->
  Date_getTime Date_parse (read subject f_issuedAt) = Return (Some t) ->
  now - t <= maxVCAge this * 1000 ->
  age_outcome Date_parse this now claims = None.
Proof.
  intros Hs Hd Hw. unfold age_outcome. rewrite Hs. cbn zeta. rewrite Hd.
  unfold too_old.
  destruct (Z.ltb_spec (maxVCAge this * 1000) (now - t)); [lia|].
  rewrite andb_false_r. reflexivity.
Qed.

End Outcomes.
End ClockFacts.

Module EngineClaims.
Import JS Policy Server Shape Rules Expect Clock Facts Throws PolicyFacts
  ClockFacts.

(** What [authorize] grants when the action is a key the table can be
    asked for. *)
Lemma authorize_grants claims subject key :
  credentialSubject_of claims = Return subject ->
  toString (taskAction_of subject) = Return key ->
  (table_own key permissions_table = None -> mem key Object_prototype = false) ->
  authorize claims =
    Return {| authorized := true;
              holderDID := read subject f_id;
              action := taskAction_of subject;
              permissions := match table_own key permissions_table with
                             | Some perms => perms
                             | None => []
                             end;
              expiresIn := 3600 |}.
Proof.
  intros Hs Hk Hm. unfold authorize, grantedPermissions_of.
  rewrite Hs; cbn [bind]. rewrite Hk; cbn [bind].
  destruct (table_own key permissions_table) as [perms|]; [reflexivity|].
  rewrite (Hm eq_refl). reflexivity.
Qed.

Example authorize_OrderPizza :
  authorize (Sample.credential (VStr "OrderPizza"))
  = Return {| authorized := true;
              holderDID := Sample.holder;
              action := VStr "OrderPizza";
              permissions := ["read:menu"; "write:order"];
              expiresIn := 3600 |}.
Proof. reflexivity. Qed.

Example authorize_unlisted :
  authorize (Sample.credential (VStr "DeleteAccount"))
  = Return {| authorized := true;
              holderDID := Sample.holder;
              action := VStr "DeleteAccount";
              permissions := [];
              expiresIn := 3600 |}.
Proof. reflexivity. Qed.

(** Every unlisted action that names a member of [Object.prototype] makes
    [authorize] throw. *)
Lemma authorize_inherited claims subject key :
  credentialSubject_of claims = Return subject ->
  toString (taskAction_of subject) = Return key ->
  table_own key permissions_table = None ->
  mem key Object_prototype = true ->
  authorize claims
  = Throw (Exn Engine "grantedPermissions.join is not a function").
Proof.
  intros Hs Hk Ht Hm. unfold authorize, grantedPermissions_of.
  rewrite Hs; cbn [bind]. rewrite Hk; cbn [bind]. rewrite Ht, Hm. reflexivity.
Qed.

(** An array that prints as a listed action is granted its permissions. *)
Example authorize_array_action :
  authorize (Sample.credential (VArr [ VStr "QueryStatus" ]))
  = Return {| authorized := true;
              holderDID := Sample.holder;
              action := VArr [ VStr "QueryStatus" ];
              permissions := ["read:status"];
              expiresIn := 3600 |}.
Proof. reflexivity. Qed.

(** C2, at the failing input: the action [toString] is not listed, yet
    [authorize] throws instead of granting the empty permission set,
    because [permissions[taskAction]] finds the member that the table
    inherits from [Object.prototype]. *)
Theorem authorize_throws_on_inherited_key :
  taskAction_of (Sample.subject (VStr "toString")) = VStr "toString" /\
  table_own "toString" permissions_table = None /\
  authorize (Sample.credential (VStr "toString"))
  = Throw (Exn Engine "grantedPermissions.join is not a function").
Proof.
  split; [reflexivity|]. split; [reflexivity|].
  apply (authorize_inherited _ (Sample.subject (VStr "toString")) "toString");
    reflexivity.
Qed.




(** C7, as stated, fails: the same credential, checked at the last
    millisecond of its validity and one millisecond later, gets two
    different results. *)
Lemma compliance_depends_on_the_clock :
  checkPolicyCompliance Sample.Date_parse constructor_policies
    (Sample.issued_ms + 3600000) (Sample.credential (VStr "OrderPizza")) None
  <> checkPolicyCompliance Sample.Date_parse constructor_policies
       (Sample.issued_ms + 3600001) (Sample.credential (VStr "OrderPizza")) None.
Proof. vm_compute. discriminate. Qed.

(** C7, amended. Two calls of checkPolicyCompliance on identical claims
    and identical requiredSchema, at the times now1 and now2, yield
    identical results whenever the age check has the same outcome at the
    two times: not expired at both (no truthy issuedAt, an issuedAt that
    is no date, or at most maxVCAge seconds elapsed), or expired at both
    with the same whole number of elapsed seconds.  In particular any two
    calls within the window agree.  Conversely, two calls that return the
    same result had the same outcome of the age check. *)
Theorem compliance_is_repeatable :
  forall Date_parse this now1 now2 claims requiredSchema,
    (age_outcome Date_parse this now1 claims
     = age_outcome Date_parse this now2 claims ->
     checkPolicyCompliance Date_parse this now1 claims requiredSchema
     = checkPolicyCompliance Date_parse this now2 claims requiredSchema)
    /\
    (forall subject t,
        credentialSubject_of claims = Return subject ->
        Date_getTime Date_parse (read subject f_issuedAt) = Return (Some t) ->
        now1 - t <= maxVCAge this * 1000 ->
        now2 - t <= maxVCAge this * 1000 ->
        checkPolicyCompliance Date_parse this now1 claims requiredSchema
        = checkPolicyCompliance Date_parse this now2 claims requiredSchema)
    /\
    (forall r,
        checkPolicyCompliance Date_parse this now1 claims requiredSchema
        = Return r ->
        checkPolicyCompliance Date_parse this now2 claims requiredSchema
        = Return r ->
        age_outcome Date_parse this now1 claims
        = age_outcome Date_parse this now2 claims).
Proof.
  intros Date_parse this now1 now2 claims requiredSchema.
  split; [|split].
  - apply same_outcome_same_result.
  - intros subject t Hs Hd H1 H2. apply same_outcome_same_result.
    rewrite (age_outcome_within Date_parse this now1 claims subject t Hs Hd H1),
      (age_outcome_within Date_parse this now2 claims subject t Hs Hd H2).
    reflexivity.
  - intros r H1 H2.
    apply (same_result_same_outcome Date_parse this now1 now2 claims
             requiredSchema r H1 H2).
Qed.

Lemma compliance_is_repeatable_witness :
  age_outcome Sample.Date_parse constructor_policies
    (Sample.issued_ms + 1000) (Sample.credential (VStr "OrderPizza"))
  = age_outcome Sample.Date_parse constructor_policies
      (Sample.issued_ms + 2000) (Sample.credential (VStr "OrderPizza")) /\
  checkPolicyCompliance Sample.Date_parse constructor_policies
    (Sample.issued_ms + 1000) (Sample.credential (VStr "OrderPizza")) None
  = checkPolicyCompliance Sample.Date_parse constructor_policies
      (Sample.issued_ms + 2000) (Sample.credential (VStr "OrderPizza")) None /\
  age_outcome Sample.Date_parse constructor_policies
    (Sample.issued_ms + 3600000) (Sample.credential (VStr "OrderPizza"))
  <> age_outcome Sample.Date_parse constructor_policies
       (Sample.issued_ms + 3600001) (Sample.credential (VStr "OrderPizza")) /\
  age_outcome Sample.Date_parse constructor_policies
    (Sample.issued_ms + 3601000) (Sample.credential (VStr "OrderPizza"))
  = age_outcome Sample.Date_parse constructor_policies
      (Sample.issued_ms + 3601999) (Sample.credential (VStr "OrderPizza")) /\
  checkPolicyCompliance Sample.Date_parse constructor_policies
    (Sample.issued_ms + 3601000) (Sample.credential (VStr "OrderPizza")) None
  = checkPolicyCompliance Sample.Date_parse constructor_policies
      (Sample.issued_ms + 3601999) (Sample.credential (VStr "OrderPizza")) None.
Proof.
  split; [reflexivity|]. split.
  { apply (proj1 (compliance_is_repeatable Sample.Date_parse
                    constructor_policies (Sample.issued_ms + 1000)
                    (Sample.issued_ms + 2000)
                    (Sample.credential (VStr "OrderPizza")) None)).
    reflexivity. }
  split; [vm_compute; discriminate|]. split; [reflexivity|].
  apply (proj1 (compliance_is_repeatable Sample.Date_parse
                  constructor_policies (Sample.issued_ms + 3601000)
                  (Sample.issued_ms + 3601999)
                  (Sample.credential (VStr "OrderPizza")) None)).
  reflexivity.
Defined.

End EngineClaims.

Module ServerClaims.
Import JS Policy Server Shape Rules Expect Protocol Facts Throws PolicyFacts EngineClaims.

Lemma checkRevocationStatus_cases vcId :
  checkRevocationStatus vcId = Return not_revoked
  \/ exists e, toString vcId = Throw e /\ checkRevocationStatus vcId = Throw e.
Proof.
  unfold checkRevocationStatus. destruct (toString vcId) as [s|e]; simpl; eauto.
Qed.

(** A falsy or an allowed action is a key of the permission table or of
    nothing at all. *)
Lemma allowed_action_is_mapped subject :
  action_disallowed constructor_policies (taskAction_of subject) = false ->
  exists key,
    toString (taskAction_of subject) = Return key /\
    (table_own key permissions_table = None -> mem key Object_prototype = false).
Proof.
  unfold action_disallowed. intro H.
  destruct (taskAction_of subject) as [| |b|n|s|l|p]; simpl in H;
    try discriminate.
  - eexists; split; [reflexivity|]; reflexivity.
  - eexists; split; [reflexivity|]; reflexivity.
  - destruct b; try discriminate. eexists; split; [reflexivity|]; reflexivity.
  - destruct (Z.eqb_spec n 0) as [E|E]; try discriminate. subst n.
    eexists; split; [reflexivity|]; reflexivity.
  - exists s. split; [reflexivity|].
    destruct (String.eqb_spec s "") as [E|E]; [subst s; reflexivity|]. simpl in H.
    apply negb_false_iff in H. unfold mem in H. simpl in H.
    repeat (apply orb_prop in H; destruct H as [H|H];
            [apply String.eqb_eq in H; subst s; discriminate|]).
    discriminate.
Qed.

(** An attempt that stopped at a step has not passed all checks. *)
Lemma stopped_not_passed verifyPresentation Date_parse nowCheck vpJwt why n g :
  stopped verifyPresentation Date_parse nowCheck vpJwt why n ->
  ~ passed verifyPresentation Date_parse nowCheck vpJwt g.
Proof.
  intros Hf [vp c Hv Hc Ht Hr Hp Hg].
  destruct Hf as [why' Hv' | vp' e Hv' Hc' | vp' c' Hv' Hc' Ht'
                  | vp' c' e Hv' Hc' Ht' Hr' | vp' c' e Hv' Hc' Ht' Hr' Hp'
                  | vp' c' r Hv' Hc' Ht' Hr' Hp' Hk'];
    rewrite Hv in Hv'; try discriminate;
    injection Hv' as <-; rewrite Hc in Hc'; try discriminate;
    injection Hc' as <-; try congruence.
  rewrite Hp in Hp'. injection Hp' as <-. discriminate.
Qed.

Section Attempts.

Variable verifyPresentation : value -> verification.
Variable Date_parse : string -> option Z.
Variable encode : value -> string.

(** After a compliant check [authorize] cannot throw. *)
Lemma compliant_then_authorized now credential :
  checkPolicyCompliance Date_parse policyValidator now credential None
    = Return {| compliant := true; errors := [] |} ->
  exists g, authorize credential = Return g /\ authorized g = true.
Proof.
  intro H. apply checkPolicyCompliance_Return in H.
  destruct H as (e1 & subject & e2 & e3 & e4 & _ & Hs & H2 & _ & _ & Hv).
  assert (e1 ++ e2 ++ e3 ++ e4 = [])%list as Hnil.
  { apply verdict_compliant. rewrite <- Hv. reflexivity. }
  apply app_eq_nil in Hnil as [_ Hnil]. apply app_eq_nil in Hnil as [-> _].
  assert (action_disallowed constructor_policies (taskAction_of subject) = false)
    as Ha.
  { unfold check_action, policyValidator in H2. unfold action_disallowed.
    destruct (truthy _ && negb _); [|reflexivity].
    destruct (toString (taskAction_of subject)); discriminate. }
  destruct (allowed_action_is_mapped subject Ha) as (key & Hk & Hm).
  eexists. split; [apply (authorize_grants _ _ _ Hs Hk Hm) | reflexivity].
Qed.

(** Reading the credential can only fail with a TypeError of the engine. *)
Lemma credential_of_Throw verifiedVP e :
  credential_of verifiedVP = Throw e -> source e = Engine.
Proof.
  unfold credential_of. intro H.
  apply bind_Throw in H as [H|(p & _ & H)];
    [apply (get_Throw _ _ _ H) | discriminate].
Qed.

(** The [try] block, step by step. *)
Lemma attempt_run nowCheck nowToken vpJwt :
  (exists why n,
      stopped verifyPresentation Date_parse nowCheck vpJwt why n /\
      (1 <= n <= 4)%nat /\
      exists who,
        attempt verifyPresentation Date_parse encode nowCheck nowToken vpJwt
        = (steps n, Throw (Exn who why)) /\ who <> RevokedVC)
  \/
  (exists authResult credential,
      passed verifyPresentation Date_parse nowCheck vpJwt authResult /\
      attempt verifyPresentation Date_parse encode nowCheck nowToken vpJwt
      = (steps 7,
         Return (success
                   (let subject :=
                      get_opt (read credential f_credentialSubject) f_id in
                    if truthy subject then subject else holderDID authResult)
                   (generateAuthToken encode nowToken authResult)))).
Proof.
  unfold attempt, await_verifyPresentation.
  destruct (verifyPresentation vpJwt) as [verifiedVP|why] eqn:Hv.
  2:{ left. exists why, 1%nat. split; [constructor; exact Hv|].
      split; [lia|]. exists Verifier. split; [reflexivity | discriminate]. }
  cbn [lbind say lift app].
  destruct (credential_of verifiedVP) as [credential|[who why]] eqn:Hc.
  2:{ left. exists why, 2%nat.
      split; [apply (presentation_unreadable _ _ _ _ _ _ Hv Hc)|].
      split; [lia|]. exists who. split; [reflexivity|].
      apply credential_of_Throw in Hc. simpl in Hc. subst who. discriminate. }
  cbn [lbind say lift app].
  destruct (truthy credential) eqn:Ht.
  2:{ left. exists "VC를 찾을 수 없습니다", 2%nat.
      split; [apply (credential_missing _ _ _ _ _ _ Hv Hc Ht)|].
      split; [lia|]. exists MissingVC. split; [reflexivity | discriminate]. }
  cbn [lbind say lift app].
  destruct (checkRevocationStatus_cases credential) as [Hr|([who why] & Hs & Hr)].
  2:{ left. exists why, 3%nat.
      split; [apply (revocation_check_threw _ _ _ _ _ _ _ Hv Hc Ht Hr)|].
      split; [lia|]. exists who. rewrite Hr. split; [reflexivity|].
      apply checkRevocationStatus_Throw in Hr. simpl in Hr. subst who.
      discriminate. }
  rewrite Hr. cbn [lbind say lift app revoked not_revoked].
  destruct (checkPolicyCompliance Date_parse policyValidator nowCheck credential
              None) as [r|[who why]] eqn:Hp.
  2:{ left. exists why, 4%nat.
      split; [apply (compliance_check_threw _ _ _ _ _ _ _ Hv Hc Ht Hr Hp)|].
      split; [lia|]. exists who. split; [reflexivity|].
      apply checkPolicyCompliance_Throw in Hp. simpl in Hp. subst who.
      discriminate. }
  cbn [lbind say lift app].
  destruct (compliant r) eqn:Hk.
  2:{ left. eexists _, 4%nat.
      split; [apply (not_compliant _ _ _ _ _ _ _ Hv Hc Ht Hr Hp Hk)|].
      split; [lia|]. exists PolicyBreach.
      split; [reflexivity | discriminate]. }
  assert (r = {| compliant := true; errors := [] |}) as ->.
  { apply checkPolicyCompliance_Return in Hp.
    destruct Hp as (e1 & s & e2 & e3 & e4 & _ & _ & _ & _ & _ & ->).
    destruct (e1 ++ e2 ++ e3 ++ e4)%list; [reflexivity | discriminate]. }
  destruct (compliant_then_authorized _ _ Hp) as (g & Hg & Ha).
  right. exists g, credential.
  split; [apply (all_checks_passed _ _ _ _ _ _ _ Hv Hc Ht Hr Hp Hg)|].
  cbn [lbind say lift app]. rewrite Hg. cbn [lbind say lift app].
  rewrite Ha. reflexivity.
Qed.

Lemma steps_without_7 n : (n <= 4)%nat -> ~ In (Step 7) (steps n).
Proof.
  intros Hn Hin. unfold steps in Hin. apply in_map_iff in Hin.
  destruct Hin as (k & Hk & Hin). injection Hk as ->.
  apply in_seq in Hin. lia.
Qed.

(** C1. The handler answers in one of three ways.  Without a
    presentation it answers 401 with the body {error: "VP가 필요합니다"}.
    When a step fails or throws (signature verification, reading the
    credential, the revocation check, the compliance check) it answers
    403 with the body {error: reason}, the reason being that of the
    failing step, has logged only the steps before it, and carries no
    token.  Only when signature verification, the revocation check and
    the compliance check have succeeded, in that order, does it compute
    the token and answer 200 with it, the token being the encoding of
    {did, action, permissions, exp} of the grant; and an attempt in which
    a step fails is never one in which they all succeed. *)
Theorem token_only_after_all_checks :
  forall nowCheck nowToken vpJwt,
    let run :=
      authenticate verifyPresentation Date_parse encode nowCheck nowToken vpJwt in
    ((truthy vpJwt = false /\
      run = ([], {| status := 401;
                    body := VObj [ ("error", VStr "VP가 필요합니다") ] |}) /\
      authToken_of (snd run) = VUndefined)
     \/
     (truthy vpJwt = true /\
      exists why n,
        stopped verifyPresentation Date_parse nowCheck vpJwt why n /\
        run = ((steps n ++ [AuthFailed why])%list,
               {| status := 403; body := VObj [ ("error", VStr why) ] |}) /\
        ~ In (Step 7) (fst run) /\
        authToken_of (snd run) = VUndefined)
     \/
     (truthy vpJwt = true /\
      exists authResult,
        passed verifyPresentation Date_parse nowCheck vpJwt authResult /\
        fst run = [Step 1; Step 2; Step 3; Step 4; Step 5; Step 6; Step 7] /\
        status (snd run) = 200 /\
        authToken_of (snd run)
        = VStr (encode
                  (VObj [ ("did", holderDID authResult);
                          ("action", action authResult);
                          ("permissions",
                           VArr (map VStr (permissions authResult)));
                          ("exp",
                           VNum (nowToken / 1000 + expiresIn authResult)) ]))))
    /\
    (forall why n authResult,
        stopped verifyPresentation Date_parse nowCheck vpJwt why n ->
        ~ passed verifyPresentation Date_parse nowCheck vpJwt authResult).
Proof.
  intros nowCheck nowToken vpJwt run. subst run.
  split; [|intros why n g; apply stopped_not_passed].
  unfold authenticate.
  destruct (truthy vpJwt) eqn:Hjwt; cbn [negb].
  2:{ left. repeat split. }
  right.
  destruct (attempt_run nowCheck nowToken vpJwt)
    as [(why & n & Hf & Hn & who & Ha & _)|(g & credential & Hp & Ha)];
    rewrite Ha.
  - left. split; [reflexivity|]. exists why, n. cbn [message fst snd].
    split; [exact Hf|]. split; [reflexivity|]. split; [|reflexivity].
    intro Hin. apply in_app_or in Hin as [Hin|[Hin|[]]]; [|discriminate].
    apply (steps_without_7 n); [lia | exact Hin].
  - right. split; [reflexivity|]. exists g. repeat split. exact Hp.
Qed.

(** What holds of the revocation check: checkRevocationStatus returns
    {revoked: false, reason: null} for every input that its log line can
    print, and throws for the others; it never reports a revoked
    credential, so the handler never reaches the branch that rejects
    one. *)
Lemma revocation_never_rejects :
  forall nowCheck nowToken vpJwt vcId,
    (checkRevocationStatus vcId = Return not_revoked
     \/ (printable vcId = false /\
         exists e, checkRevocationStatus vcId = Throw e /\ source e = Engine))
    /\ rejected_as_revoked
         (attempt verifyPresentation Date_parse encode nowCheck nowToken vpJwt)
       = false.
Proof.
  intros nowCheck nowToken vpJwt vcId. split.
  - destruct (checkRevocationStatus_cases vcId) as [H|(e & Hs & H)];
      [left; exact H | right].
    split; [unfold printable; rewrite Hs; reflexivity|].
    exists e. split; [exact H | apply (toString_Throw _ _ Hs)].
  - destruct (attempt_run nowCheck nowToken vpJwt)
      as [(why & n & _ & _ & who & Ha & Hw)|(g & credential & _ & Ha)];
      rewrite Ha; unfold rejected_as_revoked; cbn [snd source];
      [destruct who; congruence | reflexivity].
Qed.

End Attempts.

(** C8, at the failing input: checkRevocationStatus is to return
    {revoked: false, reason: null} for every input, but a credential with
    an own [toString] member cannot be printed by its log line, and the
    call throws before it reaches the [return]. *)
Theorem checkRevocationStatus_throws_on_unprintable :
  truthy Sample.unprintable = true /\
  printable Sample.unprintable = false /\
  checkRevocationStatus Sample.unprintable
  = Throw (Exn Engine "Cannot convert object to primitive value").
Proof.
  split; [reflexivity|]. split; [reflexivity|].
  unfold checkRevocationStatus.
  change (toString Sample.unprintable)
    with (@TypeError string "Cannot convert object to primitive value").
  reflexivity.
Qed.

(** In the handler such a credential is turned down at the revocation
    step, with the engine's message. *)
Example unprintable_is_rejected :
  authenticate Sample.verifyPresentation Sample.Date_parse Sample.encode
    (Sample.issued_ms + 10000) (Sample.issued_ms + 10050) (VStr "odd.vp")
  = ([Step 1; Step 2; Step 3;
      AuthFailed "Cannot convert object to primitive value"],
     rejection 403 "Cannot convert object to primitive value").
Proof. reflexivity. Qed.

Lemma token_only_after_all_checks_witness :
  let run :=
    authenticate Sample.verifyPresentation Sample.Date_parse Sample.encode
      (Sample.issued_ms + 10000) (Sample.issued_ms + 10050) (VStr "delete.vp") in
  run = ([Step 1; Step 2; Step 3; Step 4;
          AuthFailed "정책 위반: 허용되지 않은 작업: DeleteAccount"],
         {| status := 403;
            body := VObj [ ("error",
                            VStr "정책 위반: 허용되지 않은 작업: DeleteAccount") ] |})
  /\
  exists why n,
    stopped Sample.verifyPresentation Sample.Date_parse
      (Sample.issued_ms + 10000) (VStr "delete.vp") why n /\
    snd run = {| status := 403; body := VObj [ ("error", VStr why) ] |} /\
    ~ In (Step 7) (fst run) /\
    authToken_of (snd run) = VUndefined.
Proof.
  intro run. split; [reflexivity|].
  destruct (token_only_after_all_checks Sample.verifyPresentation
              Sample.Date_parse Sample.encode (Sample.issued_ms + 10000)
              (Sample.issued_ms + 10050) (VStr "delete.vp"))
    as [[(Hfalse & _)|[(_ & why & n & Hs & Hrun & Hlog & Htok)
                      |(_ & g & _ & _ & H200 & _)]] _].
  - discriminate Hfalse.
  - exists why, n. split; [exact Hs|]. split; [|split; assumption].
    change (snd run
            = snd ((steps n ++ [AuthFailed why])%list,
                   {| status := 403; body := VObj [ ("error", VStr why) ] |})).
    f_equal. exact Hrun.
  - discriminate H200.
Defined.

(** The end-to-end scenario of the specification: a TaskLog credential
    for OrderPizza, presented ten seconds after it was issued. *)
Example order_is_authenticated :
  authenticate Sample.verifyPresentation Sample.Date_parse Sample.encode
    (Sample.issued_ms + 10000) (Sample.issued_ms + 10050) (VStr "order.vp")
  = ([Step 1; Step 2; Step 3; Step 4; Step 5; Step 6; Step 7],
     success Sample.holder
       {| tokenType := "Bearer";
          accessToken := "base64:OrderPizza";
          token_expiresIn := 3600 |}).
Proof. reflexivity. Qed.

(** The rejection scenario: an action outside the allowed list. *)
Example delete_is_rejected :
  authenticate Sample.verifyPresentation Sample.Date_parse Sample.encode
    (Sample.issued_ms + 10000) (Sample.issued_ms + 10050) (VStr "delete.vp")
  = ([Step 1; Step 2; Step 3; Step 4;
      AuthFailed "정책 위반: 허용되지 않은 작업: DeleteAccount"],
     rejection 403 "정책 위반: 허용되지 않은 작업: DeleteAccount").
Proof. reflexivity. Qed.

Example forged_is_rejected :
  authenticate Sample.verifyPresentation Sample.Date_parse Sample.encode
    (Sample.issued_ms + 10000) (Sample.issued_ms + 10050) (VStr "forged.vp")
  = ([Step 1; AuthFailed "invalid_jwt"], rejection 403 "invalid_jwt").
Proof. reflexivity. Qed.

End ServerClaims.

(** * Further properties of the policy engine, the handlers, the issuer
    and the client *)

Module TokenFacts.
Import JS Policy Server Shape Rules Expect Protocol Facts Throws PolicyFacts
  EngineClaims ServerClaims.

(** What a grant of [authorize] is made of. *)
Lemma authorize_Return claims g :
  authorize claims = Return g ->
  exists subject key,
    credentialSubject_of claims = Return subject /\
    toString (taskAction_of subject) = Return key /\
    (table_own key permissions_table = None -> mem key Object_prototype = false) /\
    g = {| authorized := true;
           holderDID := read subject f_id;
           action := taskAction_of subject;
           permissions := match table_own key permissions_table with
                          | Some perms => perms
                          | None => []
                          end;
           expiresIn := 3600 |}.
Proof.
  unfold authorize, grantedPermissions_of. intro H.
  apply bind_Return in H as (subject & Hs & H).
  apply bind_Return in H as (perms & Hp & H).
  apply bind_Return in Hp as (key & Hk & Hp).
  exists subject, key. split; [exact Hs|]. split; [exact Hk|].
  destruct (table_own key permissions_table) as [listed|].
  - injection Hp as ->. injection H as <-. split; [discriminate | reflexivity].
  - destruct (mem key Object_prototype); [discriminate|].
    injection Hp as <-. injection H as <-. split; reflexivity.
Qed.

(** X1. The token made for a grant of authorize is {tokenType: Bearer,
    accessToken, expiresIn: 3600}, its accessToken being the encoding of
    {did, action, permissions, exp} of the grant; exp lies more than 3599
    and at most 3600 seconds after the time the token is made at. *)
Theorem token_expires_within_the_hour :
  forall encode now claims g,
    authorize claims = Return g ->
    exists exp,
      generateAuthToken encode now g
      = {| tokenType := "Bearer";
           accessToken :=
             encode (VObj [ ("did", holderDID g); ("action", action g);
                            ("permissions", VArr (map VStr (permissions g)));
                            ("exp", VNum exp) ]);
           token_expiresIn := 3600 |} /\
      now + 3599 * 1000 < exp * 1000 <= now + 3600 * 1000.
Proof.
  intros encode now claims g H.
  apply authorize_Return in H as (subject & key & _ & _ & _ & ->).
  exists (now / 1000 + 3600). split; [reflexivity|].
  pose proof (Z.div_mod now 1000 ltac:(lia)) as Hd.
  pose proof (Z.mod_pos_bound now 1000 ltac:(lia)) as Hm.
  lia.
Qed.

Lemma token_expires_within_the_hour_witness :
  authorize (Sample.credential (VStr "QueryStatus"))
  = Return {| authorized := true;
              holderDID := Sample.holder;
              action := VStr "QueryStatus";
              permissions := ["read:status"];
              expiresIn := 3600 |} /\
  exists exp,
    generateAuthToken Sample.encode (Sample.issued_ms + 10999)
      {| authorized := true;
         holderDID := Sample.holder;
         action := VStr "QueryStatus";
         permissions := ["read:status"];
         expiresIn := 3600 |}
    = {| tokenType := "Bearer";
         accessToken :=
           Sample.encode
             (VObj [ ("did", Sample.holder); ("action", VStr "QueryStatus");
                     ("permissions", VArr (map VStr ["read:status"]));
                     ("exp", VNum exp) ]);
         token_expiresIn := 3600 |} /\
    Sample.issued_ms + 10999 + 3599 * 1000 < exp * 1000
    <= Sample.issued_ms + 10999 + 3600 * 1000.
Proof.
  split; [reflexivity|].
  apply (token_expires_within_the_hour Sample.encode
           (Sample.issued_ms + 10999) (Sample.credential (VStr "QueryStatus"))).
  reflexivity.
Defined.

Section Issued.

Variable verifyPresentation : value -> verification.
Variable Date_parse : string -> option Z.
Variable encode : value -> string.

(** The [clientDid] of the handler is the holder of the grant. *)
Lemma clientDid_is_holder credential g :
  authorize credential = Return g ->
  (let subject := get_opt (read credential f_credentialSubject) f_id in
   if truthy subject then subject else holderDID g) = holderDID g.
Proof.
  intro H. apply authorize_Return in H as (subject & key & Hs & _ & _ & ->).
  cbn [holderDID]. unfold credentialSubject_of in Hs.
  apply bind_Return in Hs as (s & Hg & Hs).
  assert (s = read credential f_credentialSubject) as ->.
  { destruct credential; try discriminate; injection Hg as <-; reflexivity. }
  destruct (truthy (read credential f_credentialSubject)) eqn:Ht.
  - injection Hs as <-.
    assert (get_opt (read credential f_credentialSubject) f_id
            = read (read credential f_credentialSubject) f_id) as ->.
    { unfold get_opt.
      destruct (read credential f_credentialSubject); try discriminate;
        reflexivity. }
    destruct (truthy (read (read credential f_credentialSubject) f_id));
      reflexivity.
  - assert (get_opt (read credential f_credentialSubject) f_id = VUndefined)
      as ->.
    { unfold get_opt.
      destruct (read credential f_credentialSubject); try discriminate;
        reflexivity. }
    reflexivity.
Qed.

(** The handler answers 200 only in the run in which all checks pass,
    and then with the grant's holder and token. *)
Lemma authenticated nowCheck nowToken vpJwt :
  status (snd (authenticate verifyPresentation Date_parse encode nowCheck
                 nowToken vpJwt)) = 200 ->
  exists verifiedVP credential g,
    verifyPresentation vpJwt = Verified verifiedVP /\
    credential_of verifiedVP = Return credential /\
    checkPolicyCompliance Date_parse policyValidator nowCheck credential None
    = Return {| compliant := true; errors := [] |} /\
    authorize credential = Return g /\
    authenticate verifyPresentation Date_parse encode nowCheck nowToken vpJwt
    = (steps 7, success (holderDID g) (generateAuthToken encode nowToken g)).
Proof.
  unfold authenticate. destruct (truthy vpJwt); cbn [negb]; [|discriminate].
  destruct (attempt_run verifyPresentation Date_parse encode nowCheck nowToken
              vpJwt)
    as [(why & n & _ & _ & who & Ha & _)|(g & c0 & Hp & _)].
  { rewrite Ha. discriminate. }
  intros _. destruct Hp as [vp c Hv Hc Ht Hr Hp Hg].
  exists vp, c, g. repeat (split; [assumption|]).
  unfold attempt, await_verifyPresentation. rewrite Hv.
  cbn [lbind say lift app]. rewrite Hc. cbn [lbind say lift app]. rewrite Ht.
  cbn [lbind say lift app]. rewrite Hr.
  cbn [lbind say lift app revoked not_revoked]. rewrite Hp.
  cbn [lbind say lift app compliant]. rewrite Hg.
  assert (authorized g = true) as Ha.
  { apply authorize_Return in Hg as (s & k & _ & _ & _ & ->). reflexivity. }
  cbn [lbind say lift app]. rewrite Ha. cbn [lbind say lift app].
  pose proof (clientDid_is_holder c g Hg) as Hd. cbn zeta in Hd. rewrite Hd.
  reflexivity.
Qed.


(** X2. When /a2a/authenticate answers 200, the clientDid of the answer
    is the did that the token carries, and the token is the encoding of
    {did, action, permissions, exp} of the grant. *)
Theorem clientDid_is_the_did_of_the_token :
  forall nowCheck nowToken vpJwt,
    status (snd (authenticate verifyPresentation Date_parse encode nowCheck
                   nowToken vpJwt)) = 200 ->
    exists g,
      body (snd (authenticate verifyPresentation Date_parse encode nowCheck
                   nowToken vpJwt))
      = VObj [ ("status", VStr "success");
               ("message", VStr "인증 성공");
               ("clientDid", holderDID g);
               ("authToken",
                VStr (encode
                        (VObj [ ("did", holderDID g);
                                ("action", action g);
                                ("permissions", VArr (map VStr (permissions g)));
                                ("exp", VNum (nowToken / 1000 + 3600)) ]))) ].
Proof.
  intros nowCheck nowToken vpJwt H.
  apply authenticated in H as (vp & c & g & _ & _ & _ & Hg & ->).
  exists g. apply authorize_Return in Hg as (s & k & _ & _ & _ & ->).
  reflexivity.
Qed.

(** A compliant credential declares no action or an allowed one. *)
Lemma compliant_action now credential subject :
  checkPolicyCompliance Date_parse policyValidator now credential None
  = Return {| compliant := true; errors := [] |} ->
  credentialSubject_of credential = Return subject ->
  action_disallowed constructor_policies (taskAction_of subject) = false.
Proof.
  intros H Hs. apply checkPolicyCompliance_Return in H.
  destruct H as (e1 & s & e2 & e3 & e4 & _ & Hs' & H2 & _ & _ & Hv).
  assert (s = subject) as -> by congruence.
  assert (e1 ++ e2 ++ e3 ++ e4 = [])%list as Hnil.
  { apply verdict_compliant. rewrite <- Hv. reflexivity. }
  apply app_eq_nil in Hnil as [_ Hnil]. apply app_eq_nil in Hnil as [-> _].
  unfold check_action, policyValidator in H2. unfold action_disallowed.
  destruct (truthy _ && negb _); [|reflexivity].
  destruct (toString (taskAction_of subject)); discriminate.
Qed.

(** X3. A token issued by /a2a/authenticate carries either an allowed
    action with exactly the permissions the table lists for it, or no
    action and no permissions. *)
Theorem issued_token_is_least_privilege :
  forall nowCheck nowToken vpJwt,
    status (snd (authenticate verifyPresentation Date_parse encode nowCheck
                   nowToken vpJwt)) = 200 ->
    exists g,
      authToken_of (snd (authenticate verifyPresentation Date_parse encode
                           nowCheck nowToken vpJwt))
      = VStr (encode (token_payload nowToken g)) /\
      ((exists a,
           action g = VStr a /\
           In a ["OrderPizza"; "QueryStatus"; "UpdateProfile"] /\
           table_own a permissions_table = Some (permissions g) /\
           permissions g <> [])
       \/ (truthy (action g) = false /\ permissions g = [])).
Proof.
  intros nowCheck nowToken vpJwt H.
  apply authenticated in H as (vp & c & g & _ & _ & Hp & Hg & ->).
  exists g. split; [reflexivity|].
  apply authorize_Return in Hg as (s & k & Hs & Hk & _ & ->).
  pose proof (compliant_action _ _ _ Hp Hs) as Ha.
  cbn [action permissions]. unfold action_disallowed in Ha.
  destruct (taskAction_of s) as [| |b|n|a|l|p]; simpl in Ha, Hk;
    try discriminate.
  - right. injection Hk as <-. split; reflexivity.
  - right. injection Hk as <-. split; reflexivity.
  - right. destruct b; try discriminate. injection Hk as <-. split; reflexivity.
  - right. destruct (Z.eqb_spec n 0) as [E|E]; try discriminate. subst n.
    injection Hk as <-. split; reflexivity.
  - injection Hk as <-.
    destruct (String.eqb_spec a "") as [E|E].
    + right. subst a. split; reflexivity.
    + left. exists a. split; [reflexivity|]. simpl in Ha.
      apply negb_false_iff in Ha. unfold mem in Ha. simpl in Ha.
      repeat (apply orb_prop in Ha; destruct Ha as [Ha|Ha];
              [apply String.eqb_eq in Ha; subst a;
               split; [simpl; tauto | split; [reflexivity | discriminate]]|]).
      discriminate.
Qed.

End Issued.

Lemma clientDid_is_the_did_of_the_token_witness :
  status (snd (authenticate Sample.verifyPresentation Sample.Date_parse
                 Sample.encode (Sample.issued_ms + 10000)
                 (Sample.issued_ms + 10050) (VStr "order.vp"))) = 200 /\
  exists g,
    body (snd (authenticate Sample.verifyPresentation Sample.Date_parse
                 Sample.encode (Sample.issued_ms + 10000)
                 (Sample.issued_ms + 10050) (VStr "order.vp")))
    = VObj [ ("status", VStr "success");
             ("message", VStr "인증 성공");
             ("clientDid", holderDID g);
             ("authToken",
              VStr (Sample.encode
                      (VObj [ ("did", holderDID g);
                              ("action", action g);
                              ("permissions", VArr (map VStr (permissions g)));
                              ("exp",
                               VNum ((Sample.issued_ms + 10050) / 1000 + 3600))
                            ]))) ].
Proof.
  split; [reflexivity|].
  apply (clientDid_is_the_did_of_the_token Sample.verifyPresentation
           Sample.Date_parse Sample.encode).
  reflexivity.
Defined.

Lemma issued_token_is_least_privilege_witness :
  status (snd (authenticate Sample.verifyPresentation Sample.Date_parse
                 Sample.encode (Sample.issued_ms + 10000)
                 (Sample.issued_ms + 10050) (VStr "order.vp"))) = 200 /\
  exists g,
    authToken_of (snd (authenticate Sample.verifyPresentation Sample.Date_parse
                         Sample.encode (Sample.issued_ms + 10000)
                         (Sample.issued_ms + 10050) (VStr "order.vp")))
    = VStr (Sample.encode (token_payload (Sample.issued_ms + 10050) g)) /\
    ((exists a,
         action g = VStr a /\
         In a ["OrderPizza"; "QueryStatus"; "UpdateProfile"] /\
         table_own a permissions_table = Some (permissions g) /\
         permissions g <> [])
     \/ (truthy (action g) = false /\ permissions g = [])).
Proof.
  split; [reflexivity|].
  apply (issued_token_is_least_privilege Sample.verifyPresentation
           Sample.Date_parse Sample.encode).
  reflexivity.
Defined.

End TokenFacts.

Module DecisionClaims.
Import JS Policy Server Shape Rules Expect Protocol Clock Facts Throws
  PolicyFacts ClockFacts EngineClaims ServerClaims TokenFacts.


Section Decisions.

Variable verifyPresentation : value -> verification.
Variable Date_parse : string -> option Z.
Variable encode : value -> string.


End Decisions.


(** The first credential has to be truthy: behind a null first element
    the handler falls back to the array [verifiableCredential] of the
    verified object itself, and two presentations with the same first
    element get different answers. *)
Example falsy_first_credential_falls_back :
  let verifier := fun jwt =>
    match jwt with
    | VStr "with fallback" =>
        Verified
          (VObj [ ("verifiablePresentation",
                   VObj [ ("verifiableCredential", VArr [ VNull ]) ]);
                  ("verifiableCredential",
                   VArr [ Sample.credential (VStr "OrderPizza") ]) ])
    | _ =>
        Verified
          (VObj [ ("verifiablePresentation",
                   VObj [ ("verifiableCredential", VArr [ VNull ]) ]) ])
    end in
  status (snd (authenticate verifier Sample.Date_parse Sample.encode
                 (Sample.issued_ms + 10000) (Sample.issued_ms + 10050)
                 (VStr "with fallback"))) = 200 /\
  snd (authenticate verifier Sample.Date_parse Sample.encode
         (Sample.issued_ms + 10000) (Sample.issued_ms + 10050)
         (VStr "without"))
  = {| status := 403;
       body := VObj [ ("error", VStr "VC를 찾을 수 없습니다") ] |}.
Proof. split; reflexivity. Qed.

End DecisionClaims.

Module PolicyExtras.
Import JS Policy Server Shape Rules Expect Protocol Kinds Facts Throws
  PolicyFacts ComplianceClaims.

Section Checks.

Variable Date_parse : string -> option Z.
Variable this : policies.

(** *** Each check pushes violations of its own kind only *)

Lemma check_type_kind claims e :
  check_type this claims = Return e -> Forall (fun x => kind_of x = OfType) e.
Proof.
  unfold check_type. intro H.
  apply bind_Return in H as (v & _ & H). apply bind_Return in H as (b & _ & H).
  injection H as <-. destruct b; repeat constructor.
Qed.

Lemma check_action_kind subject e :
  check_action this subject = Return e ->
  Forall (fun x => kind_of x = OfAction) e.
Proof.
  unfold check_action. destruct (truthy _ && negb _); intro H.
  - apply bind_Return in H as (s & _ & H). injection H as <-.
    repeat constructor.
  - injection H as <-. constructor.
Qed.

Lemma check_age_kind now subject e :
  check_age Date_parse this now subject = Return e ->
  Forall (fun x => kind_of x = OfAge) e.
Proof.
  unfold check_age. destruct (truthy _); intro H.
  - apply bind_Return in H as ([t|] & _ & H); injection H as <-;
      [destruct (exceeds _ _)|]; repeat constructor.
  - injection H as <-. constructor.
Qed.

Lemma check_schema_kind entries subject e :
  check_schema entries subject = Return e ->
  Forall (fun x => kind_of x = OfSchema) e.
Proof.
  revert e. induction entries as [|[key ty] rest IH]; simpl; intros e H.
  - injection H as <-. constructor.
  - apply bind_Return in H as (b & _ & H).
    apply bind_Return in H as (more & Hm & H). injection H as <-.
    specialize (IH _ Hm). destruct b; [exact IH | constructor; auto].
Qed.

Lemma not_of_kind (k : kind) (x : violation) (l : list violation) :
  Forall (fun y => kind_of y = k) l -> kind_of x <> k -> ~ In x l.
Proof.
  intros Hl Hk Hin. rewrite Forall_forall in Hl. apply Hk, Hl, Hin.
Qed.

(** The errors of a result, check by check. *)
Lemma errors_by_check now claims requiredSchema r :
  checkPolicyCompliance Date_parse this now claims requiredSchema = Return r ->
  exists e1 subject e2 e3 e4,
    check_type this claims = Return e1 /\
    credentialSubject_of claims = Return subject /\
    check_action this subject = Return e2 /\
    check_age Date_parse this now subject = Return e3 /\
    match requiredSchema with
    | Some entries => check_schema entries subject
    | None => Return []
    end = Return e4 /\
    errors r = (e1 ++ e2 ++ e3 ++ e4)%list /\
    Forall (fun x => kind_of x = OfType) e1 /\
    Forall (fun x => kind_of x = OfAction) e2 /\
    Forall (fun x => kind_of x = OfAge) e3 /\
    Forall (fun x => kind_of x = OfSchema) e4.
Proof.
  intro H. apply checkPolicyCompliance_Return in H.
  destruct H as (e1 & s & e2 & e3 & e4 & H1 & Hs & H2 & H3 & H4 & ->).
  exists e1, s, e2, e3, e4. rewrite verdict_errors.
  repeat (split; [assumption || reflexivity|]).
  split; [eapply check_type_kind; eauto|].
  split; [eapply check_action_kind; eauto|].
  split; [eapply check_age_kind; eauto|].
  destruct requiredSchema.
  - eapply check_schema_kind; eauto.
  - injection H4 as <-. constructor.
Qed.

Lemma some_included_string required s :
  some_included required (VStr s)
  = Return (existsb (String_includes s) required).
Proof.
  induction required as [|r rest IH]; simpl; [reflexivity|].
  destruct (String_includes s r); simpl; [reflexivity | exact IH].
Qed.

(** X4. When the type of the claims is one string instead of an array
    of tags, the type check searches it: a missing required type is
    reported exactly when no required type occurs in the string as a
    substring. *)
Theorem string_type_is_searched_for_substrings :
  forall now claims requiredSchema s r,
    get claims f_type = Return (VStr s) ->
    s <> "" ->
    checkPolicyCompliance Date_parse this now claims requiredSchema = Return r ->
    (In (MissingVCType (requiredVCTypes this)) (errors r) <->
     existsb (String_includes s) (requiredVCTypes this) = false).
Proof.
  intros now claims requiredSchema s r Hg Hne Hr.
  apply errors_by_check in Hr
    as (e1 & subject & e2 & e3 & e4 & H1 & _ & _ & _ & _ & -> & _ & K2 & K3 & K4).
  assert (e1 = if existsb (String_includes s) (requiredVCTypes this)
               then [] else [MissingVCType (requiredVCTypes this)]) as ->.
  { unfold check_type, vcTypes_of in H1. rewrite Hg in H1. cbn [bind] in H1.
    assert (truthy (VStr s) = true) as Ht.
    { simpl. destruct (String.eqb_spec s ""); [contradiction | reflexivity]. }
    rewrite Ht in H1. cbn [bind] in H1. rewrite some_included_string in H1.
    cbn [bind] in H1. injection H1 as <-. reflexivity. }
  split.
  - intro Hin. apply in_app_or in Hin as [Hin|Hin].
    + destruct (existsb _ _); [destruct Hin | reflexivity].
    + exfalso. apply in_app_or in Hin as [Hin|Hin];
        [|apply in_app_or in Hin as [Hin|Hin]].
      * apply (not_of_kind _ _ _ K2) in Hin; [exact Hin | discriminate].
      * apply (not_of_kind _ _ _ K3) in Hin; [exact Hin | discriminate].
      * apply (not_of_kind _ _ _ K4) in Hin; [exact Hin | discriminate].
  - intros ->. apply in_or_app. left. left. reflexivity.
Qed.

(** X5. An expired credential is reported exactly when issuedAt is
    truthy, is a date, and lies more than maxVCAge seconds before the
    current time.  An issuedAt that is no date, or a date in the future,
    never expires. *)
Theorem expiry_needs_a_date_in_the_past :
  forall now claims requiredSchema subject r,
    checkPolicyCompliance Date_parse this now claims requiredSchema = Return r ->
    credentialSubject_of claims = Return subject ->
    (reports_expiry r = true <->
     truthy (read subject f_issuedAt) = true /\
     exists t,
       Date_getTime Date_parse (read subject f_issuedAt) = Return (Some t) /\
       maxVCAge this * 1000 < now - t).
Proof.
  intros now claims requiredSchema subject r Hr Hs.
  pose proof Hr as Hparts. apply checkPolicyCompliance_Return in Hparts.
  destruct Hparts as (e1 & s & e2 & e3 & e4 & _ & Hs' & _ & H3 & _ & _).
  assert (s = subject) as -> by congruence.
  rewrite (reports_expiry_age Date_parse this now claims requiredSchema
             subject r e3 Hr Hs H3).
  unfold check_age in H3.
  destruct (truthy (read subject f_issuedAt)).
  - apply bind_Return in H3 as (time & Hd & H3). rewrite Hd.
    destruct time as [t|]; injection H3 as <-.
    + rewrite exceeds_ms. destruct (Z.ltb_spec (maxVCAge this * 1000) (now - t));
        simpl; split.
      * intros _. split; [reflexivity|]. exists t. split; [reflexivity | lia].
      * reflexivity.
      * discriminate.
      * intros (_ & t' & Ht' & Hlt). injection Ht' as <-. lia.
    + simpl. split; [discriminate|]. intros (_ & t & Ht & _). discriminate.
  - injection H3 as <-. simpl. split; [discriminate|]. intros [Hf _].
    discriminate.
Qed.

(** X6. For a credentialSubject that is an object, a key of
    requiredSchema is reported missing exactly when the object neither
    has it nor inherits it: a required key named like a member of
    Object.prototype is never reported. *)
Theorem inherited_keys_are_never_missing :
  forall now claims entries props r key,
    checkPolicyCompliance Date_parse this now claims (Some entries) = Return r ->
    credentialSubject_of claims = Return (VObj props) ->
    (In (MissingField key) (errors r) <->
     In key (map fst entries) /\ has_own key props = false
     /\ mem key Object_prototype = false).
Proof.
  intros now claims entries props r key Hr Hs.
  apply errors_by_check in Hr
    as (e1 & subject & e2 & e3 & e4 & _ & Hs' & _ & _ & H4 & -> & K1 & K2 & K3 & _).
  assert (subject = VObj props) as -> by congruence.
  rewrite check_schema_object in H4. injection H4 as <-.
  assert (In (MissingField key) (map MissingField (missing_keys entries props))
          <-> In key (map fst entries) /\ has_own key props = false
              /\ mem key Object_prototype = false) as Hkeys.
  { rewrite in_map_iff. unfold missing_keys. split.
    - intros (k & Hk & Hin). injection Hk as ->.
      apply filter_In in Hin as [Hin Hb]. split; [exact Hin|].
      apply negb_true_iff, orb_false_iff in Hb. exact Hb.
    - intros (Hin & Ho & Hm). exists key. split; [reflexivity|].
      apply filter_In. split; [exact Hin|]. rewrite Ho, Hm. reflexivity. }
  rewrite <- Hkeys. split.
  - intro Hin. apply in_app_or in Hin as [Hin|Hin];
      [apply (not_of_kind _ _ _ K1) in Hin; [destruct Hin | discriminate]|].
    apply in_app_or in Hin as [Hin|Hin];
      [apply (not_of_kind _ _ _ K2) in Hin; [destruct Hin | discriminate]|].
    apply in_app_or in Hin as [Hin|Hin];
      [apply (not_of_kind _ _ _ K3) in Hin; [destruct Hin | discriminate]|].
    exact Hin.
  - intro Hin. apply in_or_app; right. apply in_or_app; right.
    apply in_or_app; right. exact Hin.
Qed.

(** X7. The result of the compliance check and the grant depend only on
    the members type, vc and credentialSubject of the claims: no other
    member, such as the issuer of the credential, is read. *)
Theorem only_type_vc_and_subject_are_read :
  forall now c1 c2 requiredSchema,
    nullish c1 = false -> nullish c2 = false ->
    read c1 f_type = read c2 f_type ->
    read c1 f_vc = read c2 f_vc ->
    read c1 f_credentialSubject = read c2 f_credentialSubject ->
    checkPolicyCompliance Date_parse this now c1 requiredSchema
    = checkPolicyCompliance Date_parse this now c2 requiredSchema
    /\ authorize c1 = authorize c2.
Proof.
  intros now c1 c2 requiredSchema N1 N2 Ht Hv Hs.
  assert (forall c f, nullish c = false -> get c f = Return (read c f)) as Hget.
  { intros c f N. destruct c; try discriminate; reflexivity. }
  assert (vcTypes_of c1 = vcTypes_of c2) as Htypes.
  { unfold vcTypes_of. rewrite !Hget, Ht, Hv by assumption. reflexivity. }
  assert (credentialSubject_of c1 = credentialSubject_of c2) as Hsubject.
  { unfold credentialSubject_of. rewrite !Hget, Hs, Hv by assumption.
    reflexivity. }
  split.
  - unfold checkPolicyCompliance, check_type. rewrite Htypes, Hsubject.
    reflexivity.
  - unfold authorize. rewrite Hsubject. reflexivity.
Qed.

End Checks.

Lemma string_type_is_searched_for_substrings_witness :
  get (Fixture.mistyped "NotATaskLogCredentialAtAll") f_type
  = Return (VStr "NotATaskLogCredentialAtAll") /\
  "NotATaskLogCredentialAtAll" <> "" /\
  checkPolicyCompliance Sample.Date_parse constructor_policies
    (Sample.issued_ms + 10000) (Fixture.mistyped "NotATaskLogCredentialAtAll")
    None = Return {| compliant := true; errors := [] |} /\
  (In (MissingVCType (requiredVCTypes constructor_policies))
      (errors {| compliant := true; errors := [] |}) <->
   existsb (String_includes "NotATaskLogCredentialAtAll")
     (requiredVCTypes constructor_policies) = false).
Proof.
  split; [reflexivity|]. split; [discriminate|]. split; [reflexivity|].
  apply (string_type_is_searched_for_substrings Sample.Date_parse
           constructor_policies (Sample.issued_ms + 10000)
           (Fixture.mistyped "NotATaskLogCredentialAtAll") None
           "NotATaskLogCredentialAtAll");
    [reflexivity | discriminate | reflexivity].
Defined.

Lemma expiry_needs_a_date_in_the_past_witness :
  checkPolicyCompliance Sample.Date_parse constructor_policies
    (Sample.issued_ms - 5000) (Sample.credential (VStr "OrderPizza")) None
  = Return {| compliant := true; errors := [] |} /\
  credentialSubject_of (Sample.credential (VStr "OrderPizza"))
  = Return (Sample.subject (VStr "OrderPizza")) /\
  (reports_expiry {| compliant := true; errors := [] |} = true <->
   truthy (read (Sample.subject (VStr "OrderPizza")) f_issuedAt) = true /\
   exists t,
     Date_getTime Sample.Date_parse
       (read (Sample.subject (VStr "OrderPizza")) f_issuedAt)
     = Return (Some t) /\
     maxVCAge constructor_policies * 1000 < Sample.issued_ms - 5000 - t).
Proof.
  split; [reflexivity|]. split; [reflexivity|].
  apply (expiry_needs_a_date_in_the_past Sample.Date_parse
           constructor_policies (Sample.issued_ms - 5000)
           (Sample.credential (VStr "OrderPizza")) None);
    reflexivity.
Defined.

Lemma inherited_keys_are_never_missing_witness :
  checkPolicyCompliance Sample.Date_parse constructor_policies
    (Sample.issued_ms + 10000) (Sample.credential (VStr "OrderPizza"))
    (Some [ ("constructor", VStr "string"); ("menu", VStr "string") ])
  = Return {| compliant := false; errors := [ MissingField "menu" ] |} /\
  credentialSubject_of (Sample.credential (VStr "OrderPizza"))
  = Return (VObj (Sample.subject_props (VStr "OrderPizza"))) /\
  (In (MissingField "constructor")
      (errors {| compliant := false; errors := [ MissingField "menu" ] |}) <->
   In "constructor"
     (map fst [ ("constructor", VStr "string"); ("menu", VStr "string") ])
   /\ has_own "constructor" (Sample.subject_props (VStr "OrderPizza")) = false
   /\ mem "constructor" Object_prototype = false).
Proof.
  split; [reflexivity|]. split; [reflexivity|].
  apply (inherited_keys_are_never_missing Sample.Date_parse
           constructor_policies (Sample.issued_ms + 10000)
           (Sample.credential (VStr "OrderPizza")));
    reflexivity.
Defined.

Lemma only_type_vc_and_subject_are_read_witness :
  nullish (Fixture.attributed "did:ethr:development:0x1ssuer") = false /\
  nullish (Fixture.attributed "did:ethr:development:0xAnyone") = false /\
  checkPolicyCompliance Sample.Date_parse constructor_policies
    (Sample.issued_ms + 10000)
    (Fixture.attributed "did:ethr:development:0x1ssuer") None
  = checkPolicyCompliance Sample.Date_parse constructor_policies
      (Sample.issued_ms + 10000)
      (Fixture.attributed "did:ethr:development:0xAnyone") None
  /\ authorize (Fixture.attributed "did:ethr:development:0x1ssuer")
     = authorize (Fixture.attributed "did:ethr:development:0xAnyone").
Proof.
  split; [reflexivity|]. split; [reflexivity|].
  apply (only_type_vc_and_subject_are_read Sample.Date_parse
           constructor_policies (Sample.issued_ms + 10000)
           (Fixture.attributed "did:ethr:development:0x1ssuer")
           (Fixture.attributed "did:ethr:development:0xAnyone") None);
    reflexivity.
Defined.

End PolicyExtras.

Module IssuerExtras.
Import JS Policy Server Shape Rules Expect Protocol Kinds Facts Throws
  PolicyFacts ComplianceClaims EngineClaims ServerClaims.

Section Issued.

Variable Date_parse : string -> option Z.

(** X8. The ServiceEndpoint credential that the issuer builds for the
    server never passes the server's own compliance check: whatever its
    contents, date and the schema asked for, a missing TaskLogCredential
    type is reported. *)
Theorem service_credential_is_never_compliant :
  forall now nbf issuedAt serverDID serviceInfo requiredSchema,
    exists r,
      checkPolicyCompliance Date_parse constructor_policies now
        (Issuer.serviceEndpoint_payload nbf issuedAt serverDID serviceInfo)
        requiredSchema = Return r /\
      compliant r = false /\
      In (MissingVCType ["TaskLogCredential"]) (errors r).
Proof.
  intros now nbf issuedAt serverDID serviceInfo requiredSchema.
  set (subject := VObj [ ("id", serverDID); ("serviceEndpoint", serviceInfo);
                         ("issuedAt", VStr issuedAt) ]).
  destruct (check_age_returns Date_parse constructor_policies now subject
              eq_refl) as [e3 H3].
  assert (exists e4, match requiredSchema with
                     | Some entries => check_schema entries subject
                     | None => Return []
                     end = Return e4) as [e4 H4].
  { destruct requiredSchema; [apply check_schema_returns; reflexivity | eauto]. }
  exists (verdict ([MissingVCType ["TaskLogCredential"]] ++ [] ++ e3 ++ e4)).
  split; [|split; [reflexivity | left; reflexivity]].
  apply checkPolicyCompliance_Return.
  exists [MissingVCType ["TaskLogCredential"]], subject, [], e3, e4.
  repeat split; assumption || reflexivity.
Qed.

Variable Date_toISOString : Z -> string.
Variable createVerifiableCredentialJwt : value -> result string.

(** X9. issueTaskLogVC hands to the signer a payload that passes the
    compliance check exactly when its action is absent or allowed and the
    check is made at most 3600 seconds after the date of issue; the grant
    for it then names the holder it was issued to. *)
Theorem issued_credential_is_compliant_while_fresh :
  forall now today check holder taskData printedDID printed,
    toString holder = Return printedDID ->
    toString (get_opt taskData f_action) = Return printed ->
    Date_toISOString today <> "" ->
    Date_parse (Date_toISOString today) = Some today ->
    exists payload r,
      Issuer.issueTaskLogVC Date_toISOString createVerifiableCredentialJwt
        now today holder taskData
      = createVerifiableCredentialJwt payload /\
      checkPolicyCompliance Date_parse constructor_policies check payload None
      = Return r /\
      (compliant r = true <->
       action_disallowed constructor_policies (get_opt taskData f_action) = false
       /\ check - today <= 3600 * 1000) /\
      (compliant r = true ->
       exists g, authorize payload = Return g /\ holderDID g = holder
                 /\ action g = get_opt taskData f_action).
Proof.
  intros now today check holder taskData printedDID printed Hd Hp Hne Hrt.
  set (issuedAt := Date_toISOString today) in *.
  set (subject := VObj [ ("id", holder); ("taskLog", taskData);
                         ("issuedAt", VStr issuedAt) ]).
  set (payload := Issuer.taskLog_payload (now / 1000) issuedAt holder taskData).
  set (e2 := if action_disallowed constructor_policies (get_opt taskData f_action)
             then [ActionNotAllowed printed] else []).
  set (e3 := if 3600 * 1000 <? check - today
             then [VCExpired ((check - today) / 1000) 3600] else []).
  assert (credentialSubject_of payload = Return subject) as Hs by reflexivity.
  assert (taskAction_of subject = get_opt taskData f_action) as Ha by reflexivity.
  assert (checkPolicyCompliance Date_parse constructor_policies check payload None
          = Return (verdict ([] ++ e2 ++ e3 ++ []))) as Hr.
  { apply checkPolicyCompliance_Return. exists [], subject, e2, e3, [].
    split; [reflexivity|]. split; [exact Hs|]. split.
    - unfold check_action. rewrite Ha. unfold e2, action_disallowed.
      destruct (truthy _ && negb _); [rewrite Hp|]; reflexivity.
    - split; [|split; reflexivity].
      apply (check_age_dated Date_parse constructor_policies check subject today).
      + simpl. destruct (String.eqb_spec issuedAt ""); [contradiction|reflexivity].
      + simpl. rewrite Hrt. reflexivity. }
  assert (compliant (verdict ([] ++ e2 ++ e3 ++ [])) = true <->
          action_disallowed constructor_policies (get_opt taskData f_action) = false
          /\ check - today <= 3600 * 1000) as Hiff.
  { rewrite verdict_compliant. unfold e2, e3. cbn [app]. rewrite app_nil_r.
    destruct (action_disallowed _ _);
      destruct (Z.ltb_spec (3600 * 1000) (check - today)); cbn [app];
      split; try discriminate; try (intros [? ?]; discriminate || lia);
      intros _; split; reflexivity || lia. }
  exists payload, (verdict ([] ++ e2 ++ e3 ++ [])).
  split; [unfold Issuer.issueTaskLogVC; rewrite Hd; reflexivity|].
  split; [exact Hr|]. split; [exact Hiff|].
  intro Hc. apply Hiff in Hc as [Hact _]. rewrite <- Ha in Hact.
  destruct (allowed_action_is_mapped subject Hact) as (key & Hk & Hm).
  eexists. split; [apply (authorize_grants payload subject key Hs Hk Hm)|].
  split; reflexivity.
Qed.

End Issued.

Lemma issued_credential_is_compliant_while_fresh_witness :
  toString Sample.holder = Return "did:ethr:development:0xC1ient" /\
  Fixture.Date_toISOString Sample.issued_ms <> "" /\
  Sample.Date_parse (Fixture.Date_toISOString Sample.issued_ms)
  = Some Sample.issued_ms /\
  exists payload r,
    Issuer.issueTaskLogVC Fixture.Date_toISOString Fixture.sign
      (Sample.issued_ms - 1) Sample.issued_ms Sample.holder
      (VObj [ ("action", VStr "OrderPizza") ])
    = Fixture.sign payload /\
    checkPolicyCompliance Sample.Date_parse constructor_policies
      (Sample.issued_ms + 10000) payload None = Return r /\
    (compliant r = true <->
     action_disallowed constructor_policies
       (get_opt (VObj [ ("action", VStr "OrderPizza") ]) f_action) = false
     /\ Sample.issued_ms + 10000 - Sample.issued_ms <= 3600 * 1000) /\
    (compliant r = true ->
     exists g, authorize payload = Return g /\ holderDID g = Sample.holder
               /\ action g
                  = get_opt (VObj [ ("action", VStr "OrderPizza") ]) f_action).
Proof.
  split; [reflexivity|]. split; [discriminate|]. split; [reflexivity|].
  apply (issued_credential_is_compliant_while_fresh Sample.Date_parse
           Fixture.Date_toISOString Fixture.sign (Sample.issued_ms - 1)
           Sample.issued_ms (Sample.issued_ms + 10000) Sample.holder
           (VObj [ ("action", VStr "OrderPizza") ])
           "did:ethr:development:0xC1ient" "OrderPizza");
    [reflexivity | reflexivity | discriminate | reflexivity].
Defined.

End IssuerExtras.

Module TaskExtras.
Import JS Policy Server Shape Access Endpoints Facts Throws TokenFacts.

Section Tasks.

Variable Date_toISOString : Z -> string.
Variable String_units : string -> list string.

Lemma token_needs_a_body reqBody :
  truthy (pick reqBody m_authToken) = true ->
  destructure reqBody m_authToken "req.body" = Return tt.
Proof. destruct reqBody; try discriminate; reflexivity. Qed.

(** X10. /ai/task never looks into the token: two requests that differ
    only in their (truthy) authToken get the same answer. *)
Theorem task_endpoint_ignores_the_token :
  forall suffix clock b1 b2,
    truthy (pick b1 m_authToken) = true ->
    truthy (pick b2 m_authToken) = true ->
    pick b1 m_taskType = pick b2 m_taskType ->
    pick b1 m_taskData = pick b2 m_taskData ->
    ai_task Date_toISOString String_units suffix clock b1
    = ai_task Date_toISOString String_units suffix clock b2.
Proof.
  intros suffix clock b1 b2 T1 T2 Htype Hdata.
  unfold ai_task, ai_task_attempt.
  rewrite (token_needs_a_body b1 T1), (token_needs_a_body b2 T2).
  cbn [bind]. rewrite T1, T2, Htype, Hdata. reflexivity.
Qed.

Lemma taskDetails_outcome suffix today taskType taskData :
  (exists details,
      taskDetails Date_toISOString String_units suffix today taskType taskData
      = Return details)
  \/ (orders_pizza taskType = true /\ nullish taskData = true /\
      exists e,
        taskDetails Date_toISOString String_units suffix today taskType
          taskData = Throw e).
Proof.
  destruct taskType as [| |b|n|s|l|p]; try (left; eexists; reflexivity).
  destruct (orders_pizza (VStr s)) eqn:Ho.
  - assert (s = "OrderPizza") as ->.
    { unfold orders_pizza in Ho.
      repeat (destruct s as [|[[] [] [] [] [] [] [] []] s]; try discriminate).
      reflexivity. }
    destruct taskData; [right | right | left ..];
      try (eexists; reflexivity);
      (split; [reflexivity|]; split; [reflexivity|]; eexists; reflexivity).
  - left. unfold taskDetails.
    repeat (destruct s as [|[[] [] [] [] [] [] [] []] s];
            try discriminate; try (eexists; reflexivity)).
Qed.

Lemma ai_task_status suffix clock reqBody :
  status (ai_task Date_toISOString String_units suffix clock reqBody)
  = expected_status reqBody.
Proof.
  unfold ai_task, ai_task_attempt, expected_status.
  destruct (nullish reqBody) eqn:Hn.
  { destruct reqBody; try discriminate; reflexivity. }
  assert (destructure reqBody m_authToken "req.body" = Return tt) as ->.
  { destruct reqBody; try discriminate; reflexivity. }
  cbn [bind].
  destruct (truthy (pick reqBody m_authToken)); cbn [negb]; [|reflexivity].
  unfold printable.
  destruct (toString (pick reqBody m_taskType)); cbn [bind negb]; [|reflexivity].
  destruct (taskDetails_outcome suffix (caseTime clock)
              (pick reqBody m_taskType) (pick reqBody m_taskData))
    as [[details Hd]|(Ho & Hnull & e & He)].
  - rewrite Hd. cbn [bind status].
    destruct (orders_pizza (pick reqBody m_taskType)) eqn:Ho; [|reflexivity].
    destruct (nullish (pick reqBody m_taskData)) eqn:Hnull; [|reflexivity].
    exfalso. unfold orders_pizza in Ho.
    destruct (pick reqBody m_taskType) as [| |b|n|s|l|p]; try discriminate.
    assert (s = "OrderPizza") as ->.
    { repeat (destruct s as [|[[] [] [] [] [] [] [] []] s]; try discriminate).
      reflexivity. }
    destruct (pick reqBody m_taskData); discriminate.
  - rewrite He, Ho, Hnull. reflexivity.
Qed.

(** X11. /ai/task answers 500 without a body and 401 without a token.
    With a token it fails (500) only when the task type cannot be
    printed or when an OrderPizza request has no taskData; every other
    request succeeds (200), whatever task type it names. *)
Theorem task_endpoint_status :
  forall suffix clock reqBody,
    status (ai_task Date_toISOString String_units suffix clock reqBody)
    = (if nullish reqBody then 500
       else if negb (truthy (pick reqBody m_authToken)) then 401
       else if negb (printable (pick reqBody m_taskType)) then 500
       else if orders_pizza (pick reqBody m_taskType)
               && nullish (pick reqBody m_taskData) then 500
       else 200).
Proof. intros suffix clock reqBody. apply ai_task_status. Qed.

Variable verifyPresentation : value -> verification.
Variable Date_parse : string -> option Z.
Variable encode : value -> string.

(** X12. A token returned by /a2a/authenticate opens /ai/task for every
    task type, not only for the action it was granted for: the request is
    served (200) whenever the task type can be printed and an OrderPizza
    request comes with taskData. *)
Theorem granted_token_opens_every_task :
  forall nowCheck nowToken vpJwt suffix clock taskType taskData,
    (forall payload, encode payload <> "") ->
    status (snd (authenticate verifyPresentation Date_parse encode nowCheck
                   nowToken vpJwt)) = 200 ->
    printable taskType = true ->
    (orders_pizza taskType = true -> nullish taskData = false) ->
    status
      (ai_task Date_toISOString String_units suffix clock
         (VObj [ ("authToken",
                  authToken_of
                    (snd (authenticate verifyPresentation Date_parse encode
                            nowCheck nowToken vpJwt)));
                 ("taskType", taskType);
                 ("taskData", taskData) ])) = 200.
Proof.
  intros nowCheck nowToken vpJwt suffix clock taskType taskData
    Hencode H Hprint Horder.
  apply authenticated in H as (vp & c & g & _ & _ & _ & _ & ->).
  rewrite ai_task_status.
  set (token := VStr (encode (token_payload nowToken g))).
  change (expected_status
            (VObj [ ("authToken", token); ("taskType", taskType);
                    ("taskData", taskData) ]) = 200).
  unfold expected_status.
  change (pick (VObj [ ("authToken", token); ("taskType", taskType);
                       ("taskData", taskData) ]) m_authToken) with token.
  change (pick (VObj [ ("authToken", token); ("taskType", taskType);
                       ("taskData", taskData) ]) m_taskType) with taskType.
  change (pick (VObj [ ("authToken", token); ("taskType", taskType);
                       ("taskData", taskData) ]) m_taskData) with taskData.
  assert (truthy token = true) as ->.
  { unfold token. simpl.
    destruct (String.eqb_spec (encode (token_payload nowToken g)) "")
      as [E|E]; [destruct (Hencode _ E) | reflexivity]. }
  cbn [nullish negb]. rewrite Hprint. cbn [negb].
  destruct (orders_pizza taskType); [|reflexivity].
  rewrite (Horder eq_refl). reflexivity.
Qed.

End Tasks.

Lemma task_endpoint_ignores_the_token_witness :
  truthy (pick (Fixture.task_request (VStr "base64:QueryStatus")
                  (VStr "OrderPizza") (VObj [ ("size", VStr "XL") ]))
            m_authToken) = true /\
  truthy (pick (Fixture.task_request (VStr "no token at all")
                  (VStr "OrderPizza") (VObj [ ("size", VStr "XL") ]))
            m_authToken) = true /\
  ai_task Fixture.Date_toISOString Fixture.String_units "K3J9X0ABC"
    Fixture.clock
    (Fixture.task_request (VStr "base64:QueryStatus") (VStr "OrderPizza")
       (VObj [ ("size", VStr "XL") ]))
  = ai_task Fixture.Date_toISOString Fixture.String_units "K3J9X0ABC"
      Fixture.clock
      (Fixture.task_request (VStr "no token at all") (VStr "OrderPizza")
         (VObj [ ("size", VStr "XL") ])).
Proof.
  split; [reflexivity|]. split; [reflexivity|].
  apply (task_endpoint_ignores_the_token Fixture.Date_toISOString
           Fixture.String_units "K3J9X0ABC" Fixture.clock);
    reflexivity.
Defined.

Lemma granted_token_opens_every_task_witness :
  (forall payload, Sample.encode payload <> "") /\
  status (snd (authenticate Sample.verifyPresentation Sample.Date_parse
                 Sample.encode (Sample.issued_ms + 10000)
                 (Sample.issued_ms + 10050) (VStr "order.vp"))) = 200 /\
  status
    (ai_task Fixture.Date_toISOString Fixture.String_units "K3J9X0ABC"
       Fixture.clock
       (VObj [ ("authToken",
                authToken_of
                  (snd (authenticate Sample.verifyPresentation
                          Sample.Date_parse Sample.encode
                          (Sample.issued_ms + 10000)
                          (Sample.issued_ms + 10050) (VStr "order.vp"))));
               ("taskType", VStr "UpdateProfile");
               ("taskData", VUndefined) ])) = 200.
Proof.
  assert (forall payload, Sample.encode payload <> "") as Hencode.
  { intro payload. unfold Sample.encode.
    destruct (toString (read payload f_action)); discriminate. }
  split; [exact Hencode|]. split; [reflexivity|].
  apply (granted_token_opens_every_task Fixture.Date_toISOString
           Fixture.String_units Sample.verifyPresentation Sample.Date_parse
           Sample.encode (Sample.issued_ms + 10000) (Sample.issued_ms + 10050)
           (VStr "order.vp") "K3J9X0ABC" Fixture.clock (VStr "UpdateProfile")
           VUndefined Hencode);
    [reflexivity | reflexivity | discriminate].
Defined.

(** The three named tasks and an unknown one, as the endpoint serves
    them. *)
Example order_without_taskData_fails :
  ai_task Fixture.Date_toISOString Fixture.String_units "K3J9X0ABC"
    Fixture.clock
    (Fixture.task_request (VStr "token") (VStr "OrderPizza") VUndefined)
  = task_failure "Cannot read properties of undefined (reading 'menu')".
Proof. reflexivity. Qed.

Example unknown_task_is_served :
  ai_task Fixture.Date_toISOString Fixture.String_units "K3J9X0ABC"
    Fixture.clock
    (Fixture.task_request (VStr "token") (VStr "DeleteAccount") VUndefined)
  = {| status := 200;
       body := VObj [ ("success", VBool true);
                      ("taskType", VStr "DeleteAccount");
                      ("details",
                       VObj [ ("message", VStr "Unknown task type");
                              ("received", VStr "DeleteAccount") ]);
                      ("processingTime", VNum 2);
                      ("timestamp", VStr "1970-01-01T00:00:00.000Z") ] |}.
Proof. reflexivity. Qed.

End TaskExtras.

Module EndpointExtras.
Import JS Policy Server Shape Access Endpoints Facts Throws.

Section Verifying.

Variable verifyPresentation : value -> verification.

(** X13. /a2a/message of the first server greets every verified
    presentation whose first credential names a subject: it looks at
    neither the type, the action, the age nor the revocation of the
    credential. *)
Theorem message_endpoint_applies_no_policy :
  forall vpJwt verified vc rest printed,
    truthy vpJwt = true ->
    verifyPresentation vpJwt = Verified verified ->
    read (read verified f_verifiablePresentation) f_verifiableCredential
    = VArr (vc :: rest) ->
    nullish (read vc f_credentialSubject) = false ->
    toString (read (read vc f_credentialSubject) f_id) = Return printed ->
    a2a_message verifyPresentation vpJwt
    = {| status := 200;
         body := VObj [ ("status", VStr "success");
                        ("message",
                         VStr ("반갑습니다 " ++ printed
                                 ++ "님, 블록체인에서 당신의 Task VC를 확인했습니다!")) ] |}.
Proof.
  intros vpJwt verified vc rest printed Hjwt Hv Hc Hs Hp.
  unfold a2a_message, a2a_message_attempt, await_verifyPresentation.
  rewrite Hjwt, Hv. cbn [negb bind].
  destruct verified; try discriminate. cbn [get bind].
  destruct (read (VObj props) f_verifiablePresentation) eqn:Hpres;
    try discriminate; cbn [get bind]; rewrite Hc; cbn [at0 first_opt bind];
    (destruct vc; try discriminate; cbn [get bind];
     destruct (read (VObj props1) f_credentialSubject);
     try discriminate; cbn [get bind]; rewrite Hp; reflexivity).
Qed.

(** X14. /api/verify-server-vp answers 200 only for a presentation that
    the verifier accepted, with {verified: true, issuer} naming the
    issuer the verifier found.  When the verifier refuses, the answer is
    400 with the body {error: reason}, the reason being the verifier's;
    and a body without a truthy serverVP gets 400 with {error: "serverVP
    is required"}. *)
Theorem server_vp_is_verified_only_when_accepted :
  forall reqBody,
    (status (verify_server_vp verifyPresentation reqBody) = 200 ->
     exists verified,
       verifyPresentation (pick reqBody m_serverVP) = Verified verified /\
       verify_server_vp verifyPresentation reqBody
       = {| status := 200;
            body := VObj [ ("verified", VBool true);
                           ("issuer", pick verified m_issuer) ] |})
    /\
    (forall why,
        truthy (pick reqBody m_serverVP) = true ->
        verifyPresentation (pick reqBody m_serverVP) = Failed why ->
        verify_server_vp verifyPresentation reqBody
        = {| status := 400; body := VObj [ ("error", VStr why) ] |})
    /\
    (nullish reqBody = false ->
     truthy (pick reqBody m_serverVP) = false ->
     verify_server_vp verifyPresentation reqBody
     = {| status := 400;
          body := VObj [ ("error", VStr "serverVP is required") ] |}).
Proof.
  intro reqBody. unfold verify_server_vp, verify_server_vp_attempt,
    await_verifyPresentation. split; [|split].
  - destruct (destructure reqBody m_serverVP "req.body"); cbn [bind];
      [|discriminate].
    destruct (truthy (pick reqBody m_serverVP)); cbn [negb]; [|discriminate].
    destruct (verifyPresentation (pick reqBody m_serverVP)) as [verified|why];
      cbn [bind]; [|discriminate].
    destruct verified; cbn [get_member bind TypeError]; try discriminate;
      intros _; eexists; split; reflexivity.
  - intros why Ht Hv.
    assert (destructure reqBody m_serverVP "req.body" = Return tt) as ->.
    { destruct reqBody; try discriminate; reflexivity. }
    cbn [bind]. rewrite Ht, Hv. reflexivity.
  - intros Hn Ht.
    assert (destructure reqBody m_serverVP "req.body" = Return tt) as ->.
    { destruct reqBody; try discriminate; reflexivity. }
    cbn [bind]. rewrite Ht. reflexivity.
Qed.

End Verifying.

Lemma message_endpoint_applies_no_policy_witness :
  truthy (VStr "delete.vp") = true /\
  Sample.verifyPresentation (VStr "delete.vp")
  = Verified (Sample.presentation [ Sample.credential (VStr "DeleteAccount") ])
  /\
  snd (authenticate Sample.verifyPresentation Sample.Date_parse Sample.encode
         (Sample.issued_ms + 10000) (Sample.issued_ms + 10050)
         (VStr "delete.vp"))
  = rejection 403 "정책 위반: 허용되지 않은 작업: DeleteAccount" /\
  a2a_message Sample.verifyPresentation (VStr "delete.vp")
  = {| status := 200;
       body := VObj [ ("status", VStr "success");
                      ("message",
                       VStr ("반갑습니다 " ++ "did:ethr:development:0xC1ient"
                               ++ "님, 블록체인에서 당신의 Task VC를 확인했습니다!")) ] |}.
Proof.
  split; [reflexivity|]. split; [reflexivity|]. split; [reflexivity|].
  apply (message_endpoint_applies_no_policy Sample.verifyPresentation
           (VStr "delete.vp")
           (Sample.presentation [ Sample.credential (VStr "DeleteAccount") ])
           (Sample.credential (VStr "DeleteAccount")) []
           "did:ethr:development:0xC1ient");
    reflexivity.
Defined.

Lemma server_vp_is_verified_only_when_accepted_witness :
  status (verify_server_vp Sample.verifyPresentation
            (VObj [ ("serverVP", VStr "order.vp") ])) = 200 /\
  (exists verified,
      Sample.verifyPresentation
        (pick (VObj [ ("serverVP", VStr "order.vp") ]) m_serverVP)
      = Verified verified /\
      verify_server_vp Sample.verifyPresentation
        (VObj [ ("serverVP", VStr "order.vp") ])
      = {| status := 200;
           body := VObj [ ("verified", VBool true);
                          ("issuer", pick verified m_issuer) ] |}) /\
  truthy (pick (VObj [ ("serverVP", VStr "forged.vp") ]) m_serverVP) = true /\
  Sample.verifyPresentation
    (pick (VObj [ ("serverVP", VStr "forged.vp") ]) m_serverVP)
  = Failed "invalid_jwt" /\
  verify_server_vp Sample.verifyPresentation
    (VObj [ ("serverVP", VStr "forged.vp") ])
  = {| status := 400; body := VObj [ ("error", VStr "invalid_jwt") ] |} /\
  verify_server_vp Sample.verifyPresentation (VObj [])
  = {| status := 400;
       body := VObj [ ("error", VStr "serverVP is required") ] |}.
Proof.
  split; [reflexivity|]. split.
  { apply (proj1 (server_vp_is_verified_only_when_accepted
                    Sample.verifyPresentation
                    (VObj [ ("serverVP", VStr "order.vp") ]))).
    reflexivity. }
  split; [reflexivity|]. split; [reflexivity|]. split.
  { apply (proj1 (proj2 (server_vp_is_verified_only_when_accepted
                           Sample.verifyPresentation
                           (VObj [ ("serverVP", VStr "forged.vp") ]))));
      reflexivity. }
  apply (proj2 (proj2 (server_vp_is_verified_only_when_accepted
                         Sample.verifyPresentation (VObj []))));
    reflexivity.
Defined.

Section Cards.

Variable Date_toISOString : Z -> string.
Variable createVerifiableCredentialJwt : value -> result string.
Variable createVerifiablePresentationJwt : value -> result string.
Variable serverDID : string.
Variable issuerDID : string.

Local Abbreviation agent_cards :=
  (Endpoints.agent_cards Date_toISOString createVerifiableCredentialJwt
     createVerifiablePresentationJwt serverDID issuerDID).
Local Abbreviation listening :=
  (Endpoints.listening Date_toISOString createVerifiableCredentialJwt
     createVerifiablePresentationJwt serverDID).

Lemma agent_cards_initialized requests : forall st,
  serverInitialized st = true ->
  agent_cards requests st
  = (st, map (fun _ => Some {| status := 200;
                               body := agent_card_body serverDID issuerDID st |})
           requests).
Proof.
  induction requests as [|[now today] rest IH]; intros st Hi; [reflexivity|].
  cbn [Endpoints.agent_cards map]. unfold Endpoints.agent_card. rewrite Hi.
  rewrite (IH st Hi). reflexivity.
Qed.

(** X15. The server listens only after its initialization succeeded.
    From then on the state holds the service credential the issuer
    signed and the presentation signed over it, and agent card requests
    change nothing: each one is answered with status 200 and the same
    card, whose serverVP is that presentation. *)
Theorem listening_server_serves_one_card :
  forall now today st,
    listening now today = Some st ->
    exists vc vp,
      Issuer.issueServiceEndpointVC Date_toISOString
        createVerifiableCredentialJwt now today (VStr serverDID) serviceInfo
      = Return vc /\
      createVerifiablePresentationJwt (presentation_payload [ VStr vc ])
      = Return vp /\
      st = {| serverVC := VStr vc; serverVP := VStr vp;
              serverInitialized := true |} /\
      pick (agent_card_body serverDID issuerDID st) m_serverVP = VStr vp /\
      forall requests,
        agent_cards requests st
        = (st, map (fun _ =>
                      Some {| status := 200;
                              body := agent_card_body serverDID issuerDID st |})
                 requests).
Proof.
  intros now today st. unfold Endpoints.listening, initializeServer.
  destruct (Issuer.issueServiceEndpointVC _ _ _ _ _ _) as [vc|e];
    [|discriminate].
  destruct (createVerifiablePresentationJwt _) as [vp|e] eqn:Hsig;
    [|discriminate].
  intro H. injection H as <-. exists vc, vp.
  split; [reflexivity|]. split; [exact Hsig|]. split; [reflexivity|].
  split; [reflexivity|].
  intro requests. apply agent_cards_initialized. reflexivity.
Qed.

End Cards.

Lemma listening_server_serves_one_card_witness :
  Endpoints.listening Fixture.Date_toISOString Fixture.sign
    Fixture.sign_presentation "did:ethr:development:0x5erver"
    Sample.issued_ms Sample.issued_ms
  = Some {| serverVC := VStr "jwt:VerifiableCredential";
            serverVP := VStr "jwt:presentation";
            serverInitialized := true |} /\
  exists vc vp,
    Issuer.issueServiceEndpointVC Fixture.Date_toISOString Fixture.sign
      Sample.issued_ms Sample.issued_ms
      (VStr "did:ethr:development:0x5erver") serviceInfo
    = Return vc /\
    Fixture.sign_presentation (presentation_payload [ VStr vc ]) = Return vp /\
    {| serverVC := VStr "jwt:VerifiableCredential";
       serverVP := VStr "jwt:presentation";
       serverInitialized := true |}
    = {| serverVC := VStr vc; serverVP := VStr vp;
         serverInitialized := true |} /\
    pick (agent_card_body "did:ethr:development:0x5erver"
            "did:ethr:development:0x1ssuer"
            {| serverVC := VStr "jwt:VerifiableCredential";
               serverVP := VStr "jwt:presentation";
               serverInitialized := true |}) m_serverVP = VStr vp /\
    forall requests,
      Endpoints.agent_cards Fixture.Date_toISOString Fixture.sign
        Fixture.sign_presentation "did:ethr:development:0x5erver"
        "did:ethr:development:0x1ssuer" requests
        {| serverVC := VStr "jwt:VerifiableCredential";
           serverVP := VStr "jwt:presentation";
           serverInitialized := true |}
      = ({| serverVC := VStr "jwt:VerifiableCredential";
            serverVP := VStr "jwt:presentation";
            serverInitialized := true |},
         map (fun _ =>
                Some {| status := 200;
                        body := agent_card_body "did:ethr:development:0x5erver"
                                  "did:ethr:development:0x1ssuer"
                                  {| serverVC := VStr "jwt:VerifiableCredential";
                                     serverVP := VStr "jwt:presentation";
                                     serverInitialized := true |} |})
           requests).
Proof.
  split; [reflexivity|].
  apply (listening_server_serves_one_card Fixture.Date_toISOString
           Fixture.sign Fixture.sign_presentation
           "did:ethr:development:0x5erver" "did:ethr:development:0x1ssuer"
           Sample.issued_ms Sample.issued_ms).
  reflexivity.
Defined.

(** With a signer that fails the server never listens. *)
Example broken_signer_never_listens :
  Endpoints.listening Fixture.Date_toISOString Fixture.sign Fixture.broken
    "did:ethr:development:0x5erver" Sample.issued_ms Sample.issued_ms = None.
Proof. reflexivity. Qed.

End EndpointExtras.

Module ClientExtras.
Import JS Access Client Facts.

Lemma prefix_refl s : String.prefix s s = true.
Proof.
  induction s as [|c s IH]; [reflexivity|].
  cbn [String.prefix]. destruct (Ascii.ascii_dec c c); [exact IH | congruence].
Qed.

Lemma prefix_app n : forall a b,
  String.prefix n a = true -> String.prefix n (a ++ b) = true.
Proof.
  induction n as [|d n IH]; intros a b H; [destruct (a ++ b)%string; reflexivity|].
  destruct a as [|c a]; [discriminate|].
  cbn [String.append String.prefix] in *.
  destruct (Ascii.ascii_dec d c); [apply IH; exact H | discriminate].
Qed.

Lemma String_includes_suffix a n : String_includes (a ++ n) n = true.
Proof.
  induction a as [|c a IH].
  - cbn [String.append]. destruct n; cbn [String_includes].
    + reflexivity.
    + rewrite prefix_refl. reflexivity.
  - cbn [String.append String_includes]. rewrite IH. apply orb_true_r.
Qed.

Lemma String_includes_app a b n :
  String_includes a n = true -> String_includes (a ++ b) n = true.
Proof.
  induction a as [|c a IH]; cbn [String_includes String.append]; intro H.
  - rewrite orb_false_r in H. destruct n; [|discriminate].
    destruct b; reflexivity.
  - apply orb_true_iff in H. destruct H as [H|H].
    + change (String c (a ++ b)) with (String c a ++ b)%string.
      rewrite (prefix_app _ _ _ H). reflexivity.
    + rewrite (IH H). apply orb_true_r.
Qed.

Lemma prefix_no_overlap tail : forall n a,
  no_overlap n tail = true ->
  String.prefix n (a ++ tail) = String.prefix n a.
Proof.
  intros n a. revert n. induction a as [|c a IH]; intros n H.
  - cbn [String.append]. destruct n as [|d n]; [destruct tail; reflexivity|].
    cbn [no_overlap] in H. apply andb_true_iff in H. destruct H as [H _].
    apply negb_true_iff in H. rewrite H. reflexivity.
  - destruct n as [|d n]; [reflexivity|].
    cbn [String.append String.prefix].
    destruct (Ascii.ascii_dec d c); [|reflexivity].
    apply IH. cbn [no_overlap] in H. apply andb_true_iff in H. apply H.
Qed.

Lemma String_includes_no_overlap a tail n :
  no_overlap n tail = true ->
  String_includes tail n = false ->
  String_includes (a ++ tail) n = String_includes a n.
Proof.
  intros Ho Ht. induction a as [|c a IH].
  - cbn [String.append]. rewrite Ht. destruct n as [|d n].
    + destruct tail; discriminate.
    + reflexivity.
  - change (String c a ++ tail)%string with (String c (a ++ tail)).
    cbn [String_includes]. rewrite IH.
    change (String c (a ++ tail)) with (String c a ++ tail)%string.
    rewrite (prefix_no_overlap _ _ _ Ho). reflexivity.
Qed.

Lemma own_assign k v props : own k (assign k v props) = Some v.
Proof.
  induction props as [|[k' v'] rest IH]; cbn [assign own].
  - rewrite String.eqb_refl. reflexivity.
  - destruct (String.eqb k k') eqn:E; cbn [own]; rewrite E;
      [reflexivity | exact IH].
Qed.

Lemma own_assign_other k k' v props :
  k' <> k -> own k' (assign k v props) = own k' props.
Proof.
  intro Hne. induction props as [|[k0 v0] rest IH]; cbn [assign own].
  - destruct (String.eqb_spec k' k); [contradiction | reflexivity].
  - destruct (String.eqb_spec k k0) as [E|E]; cbn [own].
    + subst k0. destruct (String.eqb_spec k' k); [contradiction | reflexivity].
    + rewrite IH. reflexivity.
Qed.

Section Intercepting.

Variable String_units : string -> list string.
Variable Date_toISOString : Z -> string.
Variable createVerifiablePresentationJwt : value -> result string.
Variable didString : string.

Local Abbreviation generateVP :=
  (Client.generateVP Date_toISOString createVerifiablePresentationJwt didString).
Local Abbreviation customFetch :=
  (Client.customFetch String_units Date_toISOString
     createVerifiablePresentationJwt didString).
Local Abbreviation getAgentCard :=
  (Client.getAgentCard String_units Date_toISOString
     createVerifiablePresentationJwt didString).
Local Abbreviation sendMessage :=
  (Client.sendMessage String_units Date_toISOString
     createVerifiablePresentationJwt didString).

Lemma customFetch_intercepts issuer clock url options vp :
  String_includes url "/agent-card" = false ->
  generateVP clock (taskContext_at clock) issuer = Return vp ->
  customFetch issuer clock url (Some options)
  = Return {| url := url;
              options :=
                assign "headers"
                  (VObj (assign "x-a2a-did-vp" (VStr vp)
                           (enumerable String_units
                              (pick (VObj options) m_headers))))
                  options |}.
Proof.
  intros Hu Hvp. unfold Client.customFetch. rewrite Hu.
  rewrite Hvp. reflexivity.
Qed.

Lemma message_url_is_intercepted agentUrl :
  String_includes (agentUrl ++ "/a2a/message") "/agent-card"
  = String_includes agentUrl "/agent-card".
Proof. apply String_includes_no_overlap; reflexivity. Qed.

(** X16. The agent card is requested without a presentation, whatever
    the agent URL: the interceptor passes the request on with the empty
    options, and calls neither the issuer nor the signer, so the request
    goes out even when they are missing or fail. *)
Theorem agent_card_request_is_never_intercepted :
  forall issuer clock agentUrl,
    getAgentCard issuer clock agentUrl
    = Return {| url := agentUrl ++ "/agent-card"; options := [] |}.
Proof.
  intros issuer clock agentUrl. unfold Client.getAgentCard, Client.customFetch.
  rewrite String_includes_suffix. reflexivity.
Qed.

(** X17. A request to another URL goes out with the presentation under
    the header x-a2a-did-vp; the URL, every other header and every other
    option of the caller are passed on unchanged. *)
Theorem intercepted_request_carries_the_presentation :
  forall issuer clock url options vp,
    String_includes url "/agent-card" = false ->
    generateVP clock (taskContext_at clock) issuer = Return vp ->
    exists sent headers,
      customFetch issuer clock url (Some options) = Return sent /\
      Client.url sent = url /\
      own "headers" (Client.options sent) = Some (VObj headers) /\
      own "x-a2a-did-vp" headers = Some (VStr vp) /\
      (forall k, k <> "x-a2a-did-vp" ->
                 own k headers
                 = own k (enumerable String_units
                            (pick (VObj options) m_headers))) /\
      (forall k, k <> "headers" ->
                 own k (Client.options sent) = own k options).
Proof.
  intros issuer clock url options vp Hu Hvp.
  eexists. eexists. split; [apply (customFetch_intercepts _ _ _ _ _ Hu Hvp)|].
  cbn [Client.url Client.options].
  split; [reflexivity|]. split; [apply own_assign|].
  split; [apply own_assign|].
  split; intros k Hk; apply own_assign_other; exact Hk.
Qed.

(** X18. The interceptor searches the whole URL for /agent-card: when
    the agent URL itself contains it, messages are sent without a
    presentation, exactly as the client built them. *)
Theorem agent_url_naming_the_card_sends_no_presentation :
  forall issuer clock agentUrl text,
    String_includes agentUrl "/agent-card" = true ->
    sendMessage issuer clock agentUrl text
    = Return {| url := agentUrl ++ "/a2a/message";
                options :=
                  [ ("method", VStr "POST");
                    ("headers",
                     VObj [ ("Content-Type", VStr "application/json") ]);
                    ("body", VStr text) ] |}.
Proof.
  intros issuer clock agentUrl text Hu.
  unfold Client.sendMessage, Client.customFetch.
  rewrite (String_includes_app _ "/a2a/message" _ Hu). reflexivity.
Qed.

(** X19. For any other agent URL a message goes out with exactly two
    headers, the content type and the presentation that generateVP
    returned for an OrderPizza task stamped with the clock. *)
Theorem message_carries_the_presentation :
  forall issuer clock agentUrl text vp,
    String_includes agentUrl "/agent-card" = false ->
    generateVP clock (taskContext_at clock) issuer = Return vp ->
    sendMessage issuer clock agentUrl text
    = Return {| url := agentUrl ++ "/a2a/message";
                options :=
                  [ ("method", VStr "POST");
                    ("headers",
                     VObj [ ("Content-Type", VStr "application/json");
                            ("x-a2a-did-vp", VStr vp) ]);
                    ("body", VStr text) ] |}.
Proof.
  intros issuer clock agentUrl text vp Hu Hvp. unfold Client.sendMessage.
  rewrite (customFetch_intercepts issuer clock _ _ vp);
    [reflexivity | rewrite message_url_is_intercepted; exact Hu | exact Hvp].
Qed.

End Intercepting.

Lemma intercepted_request_carries_the_presentation_witness :
  String_includes "http://localhost:3000/a2a/authenticate" "/agent-card" = false
  /\
  Client.generateVP Fixture.Date_toISOString Fixture.sign_presentation
    "did:ethr:development:0xC1ient" Fixture.client_clock
    (taskContext_at Fixture.client_clock) (Some Fixture.sign)
  = Return "jwt:presentation" /\
  exists sent headers,
    Client.customFetch Fixture.String_units Fixture.Date_toISOString
      Fixture.sign_presentation "did:ethr:development:0xC1ient"
      (Some Fixture.sign) Fixture.client_clock
      "http://localhost:3000/a2a/authenticate"
      (Some [ ("method", VStr "POST");
              ("headers", VObj [ ("Accept", VStr "application/json") ]) ])
    = Return sent /\
    Client.url sent = "http://localhost:3000/a2a/authenticate" /\
    own "headers" (Client.options sent) = Some (VObj headers) /\
    own "x-a2a-did-vp" headers = Some (VStr "jwt:presentation") /\
    (forall k, k <> "x-a2a-did-vp" ->
               own k headers
               = own k (enumerable Fixture.String_units
                          (pick (VObj [ ("method", VStr "POST");
                                        ("headers",
                                         VObj [ ("Accept",
                                                 VStr "application/json") ]) ])
                             m_headers))) /\
    (forall k, k <> "headers" ->
               own k (Client.options sent)
               = own k [ ("method", VStr "POST");
                         ("headers",
                          VObj [ ("Accept", VStr "application/json") ]) ]).
Proof.
  split; [reflexivity|]. split; [reflexivity|].
  apply (intercepted_request_carries_the_presentation Fixture.String_units
           Fixture.Date_toISOString Fixture.sign_presentation
           "did:ethr:development:0xC1ient" (Some Fixture.sign)
           Fixture.client_clock "http://localhost:3000/a2a/authenticate"
           [ ("method", VStr "POST");
             ("headers", VObj [ ("Accept", VStr "application/json") ]) ]
           "jwt:presentation");
    reflexivity.
Defined.

Lemma agent_url_naming_the_card_sends_no_presentation_witness :
  String_includes "http://localhost:3000/agent-cards/pizza" "/agent-card" = true
  /\
  Client.sendMessage Fixture.String_units Fixture.Date_toISOString
    Fixture.sign_presentation "did:ethr:development:0xC1ient"
    (Some Fixture.sign) Fixture.client_clock
    "http://localhost:3000/agent-cards/pizza" "{}"
  = Return {| url := "http://localhost:3000/agent-cards/pizza" ++ "/a2a/message";
              options :=
                [ ("method", VStr "POST");
                  ("headers",
                   VObj [ ("Content-Type", VStr "application/json") ]);
                  ("body", VStr "{}") ] |}.
Proof.
  split; [reflexivity|].
  apply (agent_url_naming_the_card_sends_no_presentation Fixture.String_units
           Fixture.Date_toISOString Fixture.sign_presentation
           "did:ethr:development:0xC1ient" (Some Fixture.sign)
           Fixture.client_clock "http://localhost:3000/agent-cards/pizza" "{}").
  reflexivity.
Defined.

Lemma message_carries_the_presentation_witness :
  String_includes "http://localhost:3000" "/agent-card" = false /\
  Client.generateVP Fixture.Date_toISOString Fixture.sign_presentation
    "did:ethr:development:0xC1ient" Fixture.client_clock
    (taskContext_at Fixture.client_clock) (Some Fixture.sign)
  = Return "jwt:presentation" /\
  Client.sendMessage Fixture.String_units Fixture.Date_toISOString
    Fixture.sign_presentation "did:ethr:development:0xC1ient"
    (Some Fixture.sign) Fixture.client_clock "http://localhost:3000" "{}"
  = Return {| url := "http://localhost:3000" ++ "/a2a/message";
              options :=
                [ ("method", VStr "POST");
                  ("headers",
                   VObj [ ("Content-Type", VStr "application/json");
                          ("x-a2a-did-vp", VStr "jwt:presentation") ]);
                  ("body", VStr "{}") ] |}.
Proof.
  split; [reflexivity|]. split; [reflexivity|].
  apply (message_carries_the_presentation Fixture.String_units
           Fixture.Date_toISOString Fixture.sign_presentation
           "did:ethr:development:0xC1ient" (Some Fixture.sign)
           Fixture.client_clock "http://localhost:3000" "{}"
           "jwt:presentation");
    reflexivity.
Defined.

End ClientExtras.
